(** * User Management API: a shallow embedding of [models.py] and [main.py]

    The service keeps one table, [users], behind five request handlers.
    This file embeds

    - the Python string operations used by the username validator
      ([str.replace], [str.isalnum], [str.lower]),
    - the three schema classes of [models.py] with their field validation,
    - the part of the SQLModel session the handlers call, over a table kept
      as the list of its rows in insertion order, and
    - the handlers of [main.py], as state-passing functions,

    and proves the properties of the create / list / get / delete workflow.

    Modelling conventions.
    - A Python [str] is the list of its code points. [str.isalnum] and
      [str.lower] follow CPython: the character classes and the lower-case
      mappings are those of Unicode 14.0 (CPython 3.11), [U+0130] lower-cases
      to two code points, and a capital sigma lower-cases to the final or
      the ordinary small sigma depending on its neighbours.
    - [datetime] values are integers (microseconds); [datetime.utcnow] is a
      clock [utcnow : nat -> datetime] giving the successive readings, and
      the state counts the readings taken so far.
    - [EmailStr] validation belongs to pydantic, not to this repository: it
      is a parameter [EmailStr_validate] returning the normalised address. *)

From Stdlib Require Import ZArith NArith List String Ascii Bool Lia Sorted.
Import ListNotations.

Local Open Scope string_scope.
Local Open Scope Z_scope.

(* ================================================================== *)
(** ** Unicode character data *)

Module Unicode.

(** The code points [c] with [chr(c).isalnum()], as closed ranges. *)
Definition alnum_ranges : list (N * N) :=
  [ (48,57); (65,90); (97,122); (170,170); (178,179); (181,181); (185,186);
    (188,190); (192,214); (216,246); (248,705); (710,721); (736,740); (748,748);
    (750,750); (880,884); (886,887); (890,893); (895,895); (902,902); (904,906);
    (908,908); (910,929); (931,1013); (1015,1153); (1162,1327); (1329,1366);
    (1369,1369); (1376,1416); (1488,1514); (1519,1522); (1568,1610);
    (1632,1641); (1646,1647); (1649,1747); (1749,1749); (1765,1766);
    (1774,1788); (1791,1791); (1808,1808); (1810,1839); (1869,1957);
    (1969,1969); (1984,2026); (2036,2037); (2042,2042); (2048,2069);
    (2074,2074); (2084,2084); (2088,2088); (2112,2136); (2144,2154);
    (2160,2183); (2185,2190); (2208,2249); (2308,2361); (2365,2365);
    (2384,2384); (2392,2401); (2406,2415); (2417,2432); (2437,2444);
    (2447,2448); (2451,2472); (2474,2480); (2482,2482); (2486,2489);
    (2493,2493); (2510,2510); (2524,2525); (2527,2529); (2534,2545);
    (2548,2553); (2556,2556); (2565,2570); (2575,2576); (2579,2600);
    (2602,2608); (2610,2611); (2613,2614); (2616,2617); (2649,2652);
    (2654,2654); (2662,2671); (2674,2676); (2693,2701); (2703,2705);
    (2707,2728); (2730,2736); (2738,2739); (2741,2745); (2749,2749);
    (2768,2768); (2784,2785); (2790,2799); (2809,2809); (2821,2828);
    (2831,2832); (2835,2856); (2858,2864); (2866,2867); (2869,2873);
    (2877,2877); (2908,2909); (2911,2913); (2918,2927); (2929,2935);
    (2947,2947); (2949,2954); (2958,2960); (2962,2965); (2969,2970);
    (2972,2972); (2974,2975); (2979,2980); (2984,2986); (2990,3001);
    (3024,3024); (3046,3058); (3077,3084); (3086,3088); (3090,3112);
    (3114,3129); (3133,3133); (3160,3162); (3165,3165); (3168,3169);
    (3174,3183); (3192,3198); (3200,3200); (3205,3212); (3214,3216);
    (3218,3240); (3242,3251); (3253,3257); (3261,3261); (3293,3294);
    (3296,3297); (3302,3311); (3313,3314); (3332,3340); (3342,3344);
    (3346,3386); (3389,3389); (3406,3406); (3412,3414); (3416,3425);
    (3430,3448); (3450,3455); (3461,3478); (3482,3505); (3507,3515);
    (3517,3517); (3520,3526); (3558,3567); (3585,3632); (3634,3635);
    (3648,3654); (3664,3673); (3713,3714); (3716,3716); (3718,3722);
    (3724,3747); (3749,3749); (3751,3760); (3762,3763); (3773,3773);
    (3776,3780); (3782,3782); (3792,3801); (3804,3807); (3840,3840);
    (3872,3891); (3904,3911); (3913,3948); (3976,3980); (4096,4138);
    (4159,4169); (4176,4181); (4186,4189); (4193,4193); (4197,4198);
    (4206,4208); (4213,4225); (4238,4238); (4240,4249); (4256,4293);
    (4295,4295); (4301,4301); (4304,4346); (4348,4680); (4682,4685);
    (4688,4694); (4696,4696); (4698,4701); (4704,4744); (4746,4749);
    (4752,4784); (4786,4789); (4792,4798); (4800,4800); (4802,4805);
    (4808,4822); (4824,4880); (4882,4885); (4888,4954); (4969,4988);
    (4992,5007); (5024,5109); (5112,5117); (5121,5740); (5743,5759);
    (5761,5786); (5792,5866); (5870,5880); (5888,5905); (5919,5937);
    (5952,5969); (5984,5996); (5998,6000); (6016,6067); (6103,6103);
    (6108,6108); (6112,6121); (6128,6137); (6160,6169); (6176,6264);
    (6272,6276); (6279,6312); (6314,6314); (6320,6389); (6400,6430);
    (6470,6509); (6512,6516); (6528,6571); (6576,6601); (6608,6618);
    (6656,6678); (6688,6740); (6784,6793); (6800,6809); (6823,6823);
    (6917,6963); (6981,6988); (6992,7001); (7043,7072); (7086,7141);
    (7168,7203); (7232,7241); (7245,7293); (7296,7304); (7312,7354);
    (7357,7359); (7401,7404); (7406,7411); (7413,7414); (7418,7418);
    (7424,7615); (7680,7957); (7960,7965); (7968,8005); (8008,8013);
    (8016,8023); (8025,8025); (8027,8027); (8029,8029); (8031,8061);
    (8064,8116); (8118,8124); (8126,8126); (8130,8132); (8134,8140);
    (8144,8147); (8150,8155); (8160,8172); (8178,8180); (8182,8188);
    (8304,8305); (8308,8313); (8319,8329); (8336,8348); (8450,8450);
    (8455,8455); (8458,8467); (8469,8469); (8473,8477); (8484,8484);
    (8486,8486); (8488,8488); (8490,8493); (8495,8505); (8508,8511);
    (8517,8521); (8526,8526); (8528,8585); (9312,9371); (9450,9471);
    (10102,10131); (11264,11492); (11499,11502); (11506,11507); (11517,11517);
    (11520,11557); (11559,11559); (11565,11565); (11568,11623); (11631,11631);
    (11648,11670); (11680,11686); (11688,11694); (11696,11702); (11704,11710);
    (11712,11718); (11720,11726); (11728,11734); (11736,11742); (11823,11823);
    (12293,12295); (12321,12329); (12337,12341); (12344,12348); (12353,12438);
    (12445,12447); (12449,12538); (12540,12543); (12549,12591); (12593,12686);
    (12690,12693); (12704,12735); (12784,12799); (12832,12841); (12872,12879);
    (12881,12895); (12928,12937); (12977,12991); (13312,19903); (19968,42124);
    (42192,42237); (42240,42508); (42512,42539); (42560,42606); (42623,42653);
    (42656,42735); (42775,42783); (42786,42888); (42891,42954); (42960,42961);
    (42963,42963); (42965,42969); (42994,43009); (43011,43013); (43015,43018);
    (43020,43042); (43056,43061); (43072,43123); (43138,43187); (43216,43225);
    (43250,43255); (43259,43259); (43261,43262); (43264,43301); (43312,43334);
    (43360,43388); (43396,43442); (43471,43481); (43488,43492); (43494,43518);
    (43520,43560); (43584,43586); (43588,43595); (43600,43609); (43616,43638);
    (43642,43642); (43646,43695); (43697,43697); (43701,43702); (43705,43709);
    (43712,43712); (43714,43714); (43739,43741); (43744,43754); (43762,43764);
    (43777,43782); (43785,43790); (43793,43798); (43808,43814); (43816,43822);
    (43824,43866); (43868,43881); (43888,44002); (44016,44025); (44032,55203);
    (55216,55238); (55243,55291); (63744,64109); (64112,64217); (64256,64262);
    (64275,64279); (64285,64285); (64287,64296); (64298,64310); (64312,64316);
    (64318,64318); (64320,64321); (64323,64324); (64326,64433); (64467,64829);
    (64848,64911); (64914,64967); (65008,65019); (65136,65140); (65142,65276);
    (65296,65305); (65313,65338); (65345,65370); (65382,65470); (65474,65479);
    (65482,65487); (65490,65495); (65498,65500); (65536,65547); (65549,65574);
    (65576,65594); (65596,65597); (65599,65613); (65616,65629); (65664,65786);
    (65799,65843); (65856,65912); (65930,65931); (66176,66204); (66208,66256);
    (66273,66299); (66304,66339); (66349,66378); (66384,66421); (66432,66461);
    (66464,66499); (66504,66511); (66513,66517); (66560,66717); (66720,66729);
    (66736,66771); (66776,66811); (66816,66855); (66864,66915); (66928,66938);
    (66940,66954); (66956,66962); (66964,66965); (66967,66977); (66979,66993);
    (66995,67001); (67003,67004); (67072,67382); (67392,67413); (67424,67431);
    (67456,67461); (67463,67504); (67506,67514); (67584,67589); (67592,67592);
    (67594,67637); (67639,67640); (67644,67644); (67647,67669); (67672,67702);
    (67705,67742); (67751,67759); (67808,67826); (67828,67829); (67835,67867);
    (67872,67897); (67968,68023); (68028,68047); (68050,68096); (68112,68115);
    (68117,68119); (68121,68149); (68160,68168); (68192,68222); (68224,68255);
    (68288,68295); (68297,68324); (68331,68335); (68352,68405); (68416,68437);
    (68440,68466); (68472,68497); (68521,68527); (68608,68680); (68736,68786);
    (68800,68850); (68858,68899); (68912,68921); (69216,69246); (69248,69289);
    (69296,69297); (69376,69415); (69424,69445); (69457,69460); (69488,69505);
    (69552,69579); (69600,69622); (69635,69687); (69714,69743); (69745,69746);
    (69749,69749); (69763,69807); (69840,69864); (69872,69881); (69891,69926);
    (69942,69951); (69956,69956); (69959,69959); (69968,70002); (70006,70006);
    (70019,70066); (70081,70084); (70096,70106); (70108,70108); (70113,70132);
    (70144,70161); (70163,70187); (70272,70278); (70280,70280); (70282,70285);
    (70287,70301); (70303,70312); (70320,70366); (70384,70393); (70405,70412);
    (70415,70416); (70419,70440); (70442,70448); (70450,70451); (70453,70457);
    (70461,70461); (70480,70480); (70493,70497); (70656,70708); (70727,70730);
    (70736,70745); (70751,70753); (70784,70831); (70852,70853); (70855,70855);
    (70864,70873); (71040,71086); (71128,71131); (71168,71215); (71236,71236);
    (71248,71257); (71296,71338); (71352,71352); (71360,71369); (71424,71450);
    (71472,71483); (71488,71494); (71680,71723); (71840,71922); (71935,71942);
    (71945,71945); (71948,71955); (71957,71958); (71960,71983); (71999,71999);
    (72001,72001); (72016,72025); (72096,72103); (72106,72144); (72161,72161);
    (72163,72163); (72192,72192); (72203,72242); (72250,72250); (72272,72272);
    (72284,72329); (72349,72349); (72368,72440); (72704,72712); (72714,72750);
    (72768,72768); (72784,72812); (72818,72847); (72960,72966); (72968,72969);
    (72971,73008); (73030,73030); (73040,73049); (73056,73061); (73063,73064);
    (73066,73097); (73112,73112); (73120,73129); (73440,73458); (73648,73648);
    (73664,73684); (73728,74649); (74752,74862); (74880,75075); (77712,77808);
    (77824,78894); (82944,83526); (92160,92728); (92736,92766); (92768,92777);
    (92784,92862); (92864,92873); (92880,92909); (92928,92975); (92992,92995);
    (93008,93017); (93019,93025); (93027,93047); (93053,93071); (93760,93846);
    (93952,94026); (94032,94032); (94099,94111); (94176,94177); (94179,94179);
    (94208,100343); (100352,101589); (101632,101640); (110576,110579);
    (110581,110587); (110589,110590); (110592,110882); (110928,110930);
    (110948,110951); (110960,111355); (113664,113770); (113776,113788);
    (113792,113800); (113808,113817); (119520,119539); (119648,119672);
    (119808,119892); (119894,119964); (119966,119967); (119970,119970);
    (119973,119974); (119977,119980); (119982,119993); (119995,119995);
    (119997,120003); (120005,120069); (120071,120074); (120077,120084);
    (120086,120092); (120094,120121); (120123,120126); (120128,120132);
    (120134,120134); (120138,120144); (120146,120485); (120488,120512);
    (120514,120538); (120540,120570); (120572,120596); (120598,120628);
    (120630,120654); (120656,120686); (120688,120712); (120714,120744);
    (120746,120770); (120772,120779); (120782,120831); (122624,122654);
    (123136,123180); (123191,123197); (123200,123209); (123214,123214);
    (123536,123565); (123584,123627); (123632,123641); (124896,124902);
    (124904,124907); (124909,124910); (124912,124926); (124928,125124);
    (125127,125135); (125184,125251); (125259,125259); (125264,125273);
    (126065,126123); (126125,126127); (126129,126132); (126209,126253);
    (126255,126269); (126464,126467); (126469,126495); (126497,126498);
    (126500,126500); (126503,126503); (126505,126514); (126516,126519);
    (126521,126521); (126523,126523); (126530,126530); (126535,126535);
    (126537,126537); (126539,126539); (126541,126543); (126545,126546);
    (126548,126548); (126551,126551); (126553,126553); (126555,126555);
    (126557,126557); (126559,126559); (126561,126562); (126564,126564);
    (126567,126570); (126572,126578); (126580,126583); (126585,126588);
    (126590,126590); (126592,126601); (126603,126619); (126625,126627);
    (126629,126633); (126635,126651); (127232,127244); (130032,130041);
    (131072,173791); (173824,177976); (177984,178205); (178208,183969);
    (183984,191456); (194560,195101); (196608,201546) ]%N.

(** The one-to-one lower-case mappings: [(lo, hi, t)] sends [lo + k] to
    [t + k] for [lo + k <= hi]. *)
Definition lower_ranges : list (N * N * N) :=
  [ (65,90,97); (192,214,224); (216,222,248); (256,256,257); (258,258,259);
    (260,260,261); (262,262,263); (264,264,265); (266,266,267); (268,268,269);
    (270,270,271); (272,272,273); (274,274,275); (276,276,277); (278,278,279);
    (280,280,281); (282,282,283); (284,284,285); (286,286,287); (288,288,289);
    (290,290,291); (292,292,293); (294,294,295); (296,296,297); (298,298,299);
    (300,300,301); (302,302,303); (306,306,307); (308,308,309); (310,310,311);
    (313,313,314); (315,315,316); (317,317,318); (319,319,320); (321,321,322);
    (323,323,324); (325,325,326); (327,327,328); (330,330,331); (332,332,333);
    (334,334,335); (336,336,337); (338,338,339); (340,340,341); (342,342,343);
    (344,344,345); (346,346,347); (348,348,349); (350,350,351); (352,352,353);
    (354,354,355); (356,356,357); (358,358,359); (360,360,361); (362,362,363);
    (364,364,365); (366,366,367); (368,368,369); (370,370,371); (372,372,373);
    (374,374,375); (376,376,255); (377,377,378); (379,379,380); (381,381,382);
    (385,385,595); (386,386,387); (388,388,389); (390,390,596); (391,391,392);
    (393,394,598); (395,395,396); (398,398,477); (399,399,601); (400,400,603);
    (401,401,402); (403,403,608); (404,404,611); (406,406,617); (407,407,616);
    (408,408,409); (412,412,623); (413,413,626); (415,415,629); (416,416,417);
    (418,418,419); (420,420,421); (422,422,640); (423,423,424); (425,425,643);
    (428,428,429); (430,430,648); (431,431,432); (433,434,650); (435,435,436);
    (437,437,438); (439,439,658); (440,440,441); (444,444,445); (452,452,454);
    (453,453,454); (455,455,457); (456,456,457); (458,458,460); (459,459,460);
    (461,461,462); (463,463,464); (465,465,466); (467,467,468); (469,469,470);
    (471,471,472); (473,473,474); (475,475,476); (478,478,479); (480,480,481);
    (482,482,483); (484,484,485); (486,486,487); (488,488,489); (490,490,491);
    (492,492,493); (494,494,495); (497,497,499); (498,498,499); (500,500,501);
    (502,502,405); (503,503,447); (504,504,505); (506,506,507); (508,508,509);
    (510,510,511); (512,512,513); (514,514,515); (516,516,517); (518,518,519);
    (520,520,521); (522,522,523); (524,524,525); (526,526,527); (528,528,529);
    (530,530,531); (532,532,533); (534,534,535); (536,536,537); (538,538,539);
    (540,540,541); (542,542,543); (544,544,414); (546,546,547); (548,548,549);
    (550,550,551); (552,552,553); (554,554,555); (556,556,557); (558,558,559);
    (560,560,561); (562,562,563); (570,570,11365); (571,571,572); (573,573,410);
    (574,574,11366); (577,577,578); (579,579,384); (580,580,649); (581,581,652);
    (582,582,583); (584,584,585); (586,586,587); (588,588,589); (590,590,591);
    (880,880,881); (882,882,883); (886,886,887); (895,895,1011); (902,902,940);
    (904,906,941); (908,908,972); (910,911,973); (913,929,945); (931,939,963);
    (975,975,983); (984,984,985); (986,986,987); (988,988,989); (990,990,991);
    (992,992,993); (994,994,995); (996,996,997); (998,998,999);
    (1000,1000,1001); (1002,1002,1003); (1004,1004,1005); (1006,1006,1007);
    (1012,1012,952); (1015,1015,1016); (1017,1017,1010); (1018,1018,1019);
    (1021,1023,891); (1024,1039,1104); (1040,1071,1072); (1120,1120,1121);
    (1122,1122,1123); (1124,1124,1125); (1126,1126,1127); (1128,1128,1129);
    (1130,1130,1131); (1132,1132,1133); (1134,1134,1135); (1136,1136,1137);
    (1138,1138,1139); (1140,1140,1141); (1142,1142,1143); (1144,1144,1145);
    (1146,1146,1147); (1148,1148,1149); (1150,1150,1151); (1152,1152,1153);
    (1162,1162,1163); (1164,1164,1165); (1166,1166,1167); (1168,1168,1169);
    (1170,1170,1171); (1172,1172,1173); (1174,1174,1175); (1176,1176,1177);
    (1178,1178,1179); (1180,1180,1181); (1182,1182,1183); (1184,1184,1185);
    (1186,1186,1187); (1188,1188,1189); (1190,1190,1191); (1192,1192,1193);
    (1194,1194,1195); (1196,1196,1197); (1198,1198,1199); (1200,1200,1201);
    (1202,1202,1203); (1204,1204,1205); (1206,1206,1207); (1208,1208,1209);
    (1210,1210,1211); (1212,1212,1213); (1214,1214,1215); (1216,1216,1231);
    (1217,1217,1218); (1219,1219,1220); (1221,1221,1222); (1223,1223,1224);
    (1225,1225,1226); (1227,1227,1228); (1229,1229,1230); (1232,1232,1233);
    (1234,1234,1235); (1236,1236,1237); (1238,1238,1239); (1240,1240,1241);
    (1242,1242,1243); (1244,1244,1245); (1246,1246,1247); (1248,1248,1249);
    (1250,1250,1251); (1252,1252,1253); (1254,1254,1255); (1256,1256,1257);
    (1258,1258,1259); (1260,1260,1261); (1262,1262,1263); (1264,1264,1265);
    (1266,1266,1267); (1268,1268,1269); (1270,1270,1271); (1272,1272,1273);
    (1274,1274,1275); (1276,1276,1277); (1278,1278,1279); (1280,1280,1281);
    (1282,1282,1283); (1284,1284,1285); (1286,1286,1287); (1288,1288,1289);
    (1290,1290,1291); (1292,1292,1293); (1294,1294,1295); (1296,1296,1297);
    (1298,1298,1299); (1300,1300,1301); (1302,1302,1303); (1304,1304,1305);
    (1306,1306,1307); (1308,1308,1309); (1310,1310,1311); (1312,1312,1313);
    (1314,1314,1315); (1316,1316,1317); (1318,1318,1319); (1320,1320,1321);
    (1322,1322,1323); (1324,1324,1325); (1326,1326,1327); (1329,1366,1377);
    (4256,4293,11520); (4295,4295,11559); (4301,4301,11565); (5024,5103,43888);
    (5104,5109,5112); (7312,7354,4304); (7357,7359,4349); (7680,7680,7681);
    (7682,7682,7683); (7684,7684,7685); (7686,7686,7687); (7688,7688,7689);
    (7690,7690,7691); (7692,7692,7693); (7694,7694,7695); (7696,7696,7697);
    (7698,7698,7699); (7700,7700,7701); (7702,7702,7703); (7704,7704,7705);
    (7706,7706,7707); (7708,7708,7709); (7710,7710,7711); (7712,7712,7713);
    (7714,7714,7715); (7716,7716,7717); (7718,7718,7719); (7720,7720,7721);
    (7722,7722,7723); (7724,7724,7725); (7726,7726,7727); (7728,7728,7729);
    (7730,7730,7731); (7732,7732,7733); (7734,7734,7735); (7736,7736,7737);
    (7738,7738,7739); (7740,7740,7741); (7742,7742,7743); (7744,7744,7745);
    (7746,7746,7747); (7748,7748,7749); (7750,7750,7751); (7752,7752,7753);
    (7754,7754,7755); (7756,7756,7757); (7758,7758,7759); (7760,7760,7761);
    (7762,7762,7763); (7764,7764,7765); (7766,7766,7767); (7768,7768,7769);
    (7770,7770,7771); (7772,7772,7773); (7774,7774,7775); (7776,7776,7777);
    (7778,7778,7779); (7780,7780,7781); (7782,7782,7783); (7784,7784,7785);
    (7786,7786,7787); (7788,7788,7789); (7790,7790,7791); (7792,7792,7793);
    (7794,7794,7795); (7796,7796,7797); (7798,7798,7799); (7800,7800,7801);
    (7802,7802,7803); (7804,7804,7805); (7806,7806,7807); (7808,7808,7809);
    (7810,7810,7811); (7812,7812,7813); (7814,7814,7815); (7816,7816,7817);
    (7818,7818,7819); (7820,7820,7821); (7822,7822,7823); (7824,7824,7825);
    (7826,7826,7827); (7828,7828,7829); (7838,7838,223); (7840,7840,7841);
    (7842,7842,7843); (7844,7844,7845); (7846,7846,7847); (7848,7848,7849);
    (7850,7850,7851); (7852,7852,7853); (7854,7854,7855); (7856,7856,7857);
    (7858,7858,7859); (7860,7860,7861); (7862,7862,7863); (7864,7864,7865);
    (7866,7866,7867); (7868,7868,7869); (7870,7870,7871); (7872,7872,7873);
    (7874,7874,7875); (7876,7876,7877); (7878,7878,7879); (7880,7880,7881);
    (7882,7882,7883); (7884,7884,7885); (7886,7886,7887); (7888,7888,7889);
    (7890,7890,7891); (7892,7892,7893); (7894,7894,7895); (7896,7896,7897);
    (7898,7898,7899); (7900,7900,7901); (7902,7902,7903); (7904,7904,7905);
    (7906,7906,7907); (7908,7908,7909); (7910,7910,7911); (7912,7912,7913);
    (7914,7914,7915); (7916,7916,7917); (7918,7918,7919); (7920,7920,7921);
    (7922,7922,7923); (7924,7924,7925); (7926,7926,7927); (7928,7928,7929);
    (7930,7930,7931); (7932,7932,7933); (7934,7934,7935); (7944,7951,7936);
    (7960,7965,7952); (7976,7983,7968); (7992,7999,7984); (8008,8013,8000);
    (8025,8025,8017); (8027,8027,8019); (8029,8029,8021); (8031,8031,8023);
    (8040,8047,8032); (8072,8079,8064); (8088,8095,8080); (8104,8111,8096);
    (8120,8121,8112); (8122,8123,8048); (8124,8124,8115); (8136,8139,8050);
    (8140,8140,8131); (8152,8153,8144); (8154,8155,8054); (8168,8169,8160);
    (8170,8171,8058); (8172,8172,8165); (8184,8185,8056); (8186,8187,8060);
    (8188,8188,8179); (8486,8486,969); (8490,8490,107); (8491,8491,229);
    (8498,8498,8526); (8544,8559,8560); (8579,8579,8580); (9398,9423,9424);
    (11264,11311,11312); (11360,11360,11361); (11362,11362,619);
    (11363,11363,7549); (11364,11364,637); (11367,11367,11368);
    (11369,11369,11370); (11371,11371,11372); (11373,11373,593);
    (11374,11374,625); (11375,11375,592); (11376,11376,594);
    (11378,11378,11379); (11381,11381,11382); (11390,11391,575);
    (11392,11392,11393); (11394,11394,11395); (11396,11396,11397);
    (11398,11398,11399); (11400,11400,11401); (11402,11402,11403);
    (11404,11404,11405); (11406,11406,11407); (11408,11408,11409);
    (11410,11410,11411); (11412,11412,11413); (11414,11414,11415);
    (11416,11416,11417); (11418,11418,11419); (11420,11420,11421);
    (11422,11422,11423); (11424,11424,11425); (11426,11426,11427);
    (11428,11428,11429); (11430,11430,11431); (11432,11432,11433);
    (11434,11434,11435); (11436,11436,11437); (11438,11438,11439);
    (11440,11440,11441); (11442,11442,11443); (11444,11444,11445);
    (11446,11446,11447); (11448,11448,11449); (11450,11450,11451);
    (11452,11452,11453); (11454,11454,11455); (11456,11456,11457);
    (11458,11458,11459); (11460,11460,11461); (11462,11462,11463);
    (11464,11464,11465); (11466,11466,11467); (11468,11468,11469);
    (11470,11470,11471); (11472,11472,11473); (11474,11474,11475);
    (11476,11476,11477); (11478,11478,11479); (11480,11480,11481);
    (11482,11482,11483); (11484,11484,11485); (11486,11486,11487);
    (11488,11488,11489); (11490,11490,11491); (11499,11499,11500);
    (11501,11501,11502); (11506,11506,11507); (42560,42560,42561);
    (42562,42562,42563); (42564,42564,42565); (42566,42566,42567);
    (42568,42568,42569); (42570,42570,42571); (42572,42572,42573);
    (42574,42574,42575); (42576,42576,42577); (42578,42578,42579);
    (42580,42580,42581); (42582,42582,42583); (42584,42584,42585);
    (42586,42586,42587); (42588,42588,42589); (42590,42590,42591);
    (42592,42592,42593); (42594,42594,42595); (42596,42596,42597);
    (42598,42598,42599); (42600,42600,42601); (42602,42602,42603);
    (42604,42604,42605); (42624,42624,42625); (42626,42626,42627);
    (42628,42628,42629); (42630,42630,42631); (42632,42632,42633);
    (42634,42634,42635); (42636,42636,42637); (42638,42638,42639);
    (42640,42640,42641); (42642,42642,42643); (42644,42644,42645);
    (42646,42646,42647); (42648,42648,42649); (42650,42650,42651);
    (42786,42786,42787); (42788,42788,42789); (42790,42790,42791);
    (42792,42792,42793); (42794,42794,42795); (42796,42796,42797);
    (42798,42798,42799); (42802,42802,42803); (42804,42804,42805);
    (42806,42806,42807); (42808,42808,42809); (42810,42810,42811);
    (42812,42812,42813); (42814,42814,42815); (42816,42816,42817);
    (42818,42818,42819); (42820,42820,42821); (42822,42822,42823);
    (42824,42824,42825); (42826,42826,42827); (42828,42828,42829);
    (42830,42830,42831); (42832,42832,42833); (42834,42834,42835);
    (42836,42836,42837); (42838,42838,42839); (42840,42840,42841);
    (42842,42842,42843); (42844,42844,42845); (42846,42846,42847);
    (42848,42848,42849); (42850,42850,42851); (42852,42852,42853);
    (42854,42854,42855); (42856,42856,42857); (42858,42858,42859);
    (42860,42860,42861); (42862,42862,42863); (42873,42873,42874);
    (42875,42875,42876); (42877,42877,7545); (42878,42878,42879);
    (42880,42880,42881); (42882,42882,42883); (42884,42884,42885);
    (42886,42886,42887); (42891,42891,42892); (42893,42893,613);
    (42896,42896,42897); (42898,42898,42899); (42902,42902,42903);
    (42904,42904,42905); (42906,42906,42907); (42908,42908,42909);
    (42910,42910,42911); (42912,42912,42913); (42914,42914,42915);
    (42916,42916,42917); (42918,42918,42919); (42920,42920,42921);
    (42922,42922,614); (42923,42923,604); (42924,42924,609); (42925,42925,620);
    (42926,42926,618); (42928,42928,670); (42929,42929,647); (42930,42930,669);
    (42931,42931,43859); (42932,42932,42933); (42934,42934,42935);
    (42936,42936,42937); (42938,42938,42939); (42940,42940,42941);
    (42942,42942,42943); (42944,42944,42945); (42946,42946,42947);
    (42948,42948,42900); (42949,42949,642); (42950,42950,7566);
    (42951,42951,42952); (42953,42953,42954); (42960,42960,42961);
    (42966,42966,42967); (42968,42968,42969); (42997,42997,42998);
    (65313,65338,65345); (66560,66599,66600); (66736,66771,66776);
    (66928,66938,66967); (66940,66954,66979); (66956,66962,66995);
    (66964,66965,67003); (68736,68786,68800); (71840,71871,71872);
    (93760,93791,93792); (125184,125217,125218) ]%N.

(** The case-ignorable code points, as closed ranges. *)
Definition case_ignorable_ranges : list (N * N) :=
  [ (39,39); (46,46); (58,58); (94,94); (96,96); (168,168); (173,173);
    (175,175); (180,180); (183,184); (688,879); (884,885); (890,890); (900,901);
    (903,903); (1155,1161); (1369,1369); (1375,1375); (1425,1469); (1471,1471);
    (1473,1474); (1476,1477); (1479,1479); (1524,1524); (1536,1541);
    (1552,1562); (1564,1564); (1600,1600); (1611,1631); (1648,1648);
    (1750,1757); (1759,1768); (1770,1773); (1807,1807); (1809,1809);
    (1840,1866); (1958,1968); (2027,2037); (2042,2042); (2045,2045);
    (2070,2093); (2137,2139); (2184,2184); (2192,2193); (2200,2207);
    (2249,2306); (2362,2362); (2364,2364); (2369,2376); (2381,2381);
    (2385,2391); (2402,2403); (2417,2417); (2433,2433); (2492,2492);
    (2497,2500); (2509,2509); (2530,2531); (2558,2558); (2561,2562);
    (2620,2620); (2625,2626); (2631,2632); (2635,2637); (2641,2641);
    (2672,2673); (2677,2677); (2689,2690); (2748,2748); (2753,2757);
    (2759,2760); (2765,2765); (2786,2787); (2810,2815); (2817,2817);
    (2876,2876); (2879,2879); (2881,2884); (2893,2893); (2901,2902);
    (2914,2915); (2946,2946); (3008,3008); (3021,3021); (3072,3072);
    (3076,3076); (3132,3132); (3134,3136); (3142,3144); (3146,3149);
    (3157,3158); (3170,3171); (3201,3201); (3260,3260); (3263,3263);
    (3270,3270); (3276,3277); (3298,3299); (3328,3329); (3387,3388);
    (3393,3396); (3405,3405); (3426,3427); (3457,3457); (3530,3530);
    (3538,3540); (3542,3542); (3633,3633); (3636,3642); (3654,3662);
    (3761,3761); (3764,3772); (3782,3782); (3784,3789); (3864,3865);
    (3893,3893); (3895,3895); (3897,3897); (3953,3966); (3968,3972);
    (3974,3975); (3981,3991); (3993,4028); (4038,4038); (4141,4144);
    (4146,4151); (4153,4154); (4157,4158); (4184,4185); (4190,4192);
    (4209,4212); (4226,4226); (4229,4230); (4237,4237); (4253,4253);
    (4348,4348); (4957,4959); (5906,5908); (5938,5939); (5970,5971);
    (6002,6003); (6068,6069); (6071,6077); (6086,6086); (6089,6099);
    (6103,6103); (6109,6109); (6155,6159); (6211,6211); (6277,6278);
    (6313,6313); (6432,6434); (6439,6440); (6450,6450); (6457,6459);
    (6679,6680); (6683,6683); (6742,6742); (6744,6750); (6752,6752);
    (6754,6754); (6757,6764); (6771,6780); (6783,6783); (6823,6823);
    (6832,6862); (6912,6915); (6964,6964); (6966,6970); (6972,6972);
    (6978,6978); (7019,7027); (7040,7041); (7074,7077); (7080,7081);
    (7083,7085); (7142,7142); (7144,7145); (7149,7149); (7151,7153);
    (7212,7219); (7222,7223); (7288,7293); (7376,7378); (7380,7392);
    (7394,7400); (7405,7405); (7412,7412); (7416,7417); (7468,7530);
    (7544,7544); (7579,7679); (8125,8125); (8127,8129); (8141,8143);
    (8157,8159); (8173,8175); (8189,8190); (8203,8207); (8216,8217);
    (8228,8228); (8231,8231); (8234,8238); (8288,8292); (8294,8303);
    (8305,8305); (8319,8319); (8336,8348); (8400,8432); (11388,11389);
    (11503,11505); (11631,11631); (11647,11647); (11744,11775); (11823,11823);
    (12293,12293); (12330,12333); (12337,12341); (12347,12347); (12441,12446);
    (12540,12542); (40981,40981); (42232,42237); (42508,42508); (42607,42610);
    (42612,42621); (42623,42623); (42652,42655); (42736,42737); (42752,42785);
    (42864,42864); (42888,42890); (42994,42996); (43000,43001); (43010,43010);
    (43014,43014); (43019,43019); (43045,43046); (43052,43052); (43204,43205);
    (43232,43249); (43263,43263); (43302,43309); (43335,43345); (43392,43394);
    (43443,43443); (43446,43449); (43452,43453); (43471,43471); (43493,43494);
    (43561,43566); (43569,43570); (43573,43574); (43587,43587); (43596,43596);
    (43632,43632); (43644,43644); (43696,43696); (43698,43700); (43703,43704);
    (43710,43711); (43713,43713); (43741,43741); (43756,43757); (43763,43764);
    (43766,43766); (43867,43871); (43881,43883); (44005,44005); (44008,44008);
    (44013,44013); (64286,64286); (64434,64450); (65024,65039); (65043,65043);
    (65056,65071); (65106,65106); (65109,65109); (65279,65279); (65287,65287);
    (65294,65294); (65306,65306); (65342,65342); (65344,65344); (65392,65392);
    (65438,65439); (65507,65507); (65529,65531); (66045,66045); (66272,66272);
    (66422,66426); (67456,67461); (67463,67504); (67506,67514); (68097,68099);
    (68101,68102); (68108,68111); (68152,68154); (68159,68159); (68325,68326);
    (68900,68903); (69291,69292); (69446,69456); (69506,69509); (69633,69633);
    (69688,69702); (69744,69744); (69747,69748); (69759,69761); (69811,69814);
    (69817,69818); (69821,69821); (69826,69826); (69837,69837); (69888,69890);
    (69927,69931); (69933,69940); (70003,70003); (70016,70017); (70070,70078);
    (70089,70092); (70095,70095); (70191,70193); (70196,70196); (70198,70199);
    (70206,70206); (70367,70367); (70371,70378); (70400,70401); (70459,70460);
    (70464,70464); (70502,70508); (70512,70516); (70712,70719); (70722,70724);
    (70726,70726); (70750,70750); (70835,70840); (70842,70842); (70847,70848);
    (70850,70851); (71090,71093); (71100,71101); (71103,71104); (71132,71133);
    (71219,71226); (71229,71229); (71231,71232); (71339,71339); (71341,71341);
    (71344,71349); (71351,71351); (71453,71455); (71458,71461); (71463,71467);
    (71727,71735); (71737,71738); (71995,71996); (71998,71998); (72003,72003);
    (72148,72151); (72154,72155); (72160,72160); (72193,72202); (72243,72248);
    (72251,72254); (72263,72263); (72273,72278); (72281,72283); (72330,72342);
    (72344,72345); (72752,72758); (72760,72765); (72767,72767); (72850,72871);
    (72874,72880); (72882,72883); (72885,72886); (73009,73014); (73018,73018);
    (73020,73021); (73023,73029); (73031,73031); (73104,73105); (73109,73109);
    (73111,73111); (73459,73460); (78896,78904); (92912,92916); (92976,92982);
    (92992,92995); (94031,94031); (94095,94111); (94176,94177); (94179,94180);
    (110576,110579); (110581,110587); (110589,110590); (113821,113822);
    (113824,113827); (118528,118573); (118576,118598); (119143,119145);
    (119155,119170); (119173,119179); (119210,119213); (119362,119364);
    (121344,121398); (121403,121452); (121461,121461); (121476,121476);
    (121499,121503); (121505,121519); (122880,122886); (122888,122904);
    (122907,122913); (122915,122916); (122918,122922); (123184,123197);
    (123566,123566); (123628,123631); (125136,125142); (125252,125259);
    (127995,127999); (917505,917505); (917536,917631); (917760,917999) ]%N.

(** The cased code points, as closed ranges. *)
Definition cased_ranges : list (N * N) :=
  [ (65,90); (97,122); (170,170); (181,181); (186,186); (192,214); (216,246);
    (248,442); (444,447); (452,659); (661,696); (704,705); (736,740); (837,837);
    (880,883); (886,887); (890,893); (895,895); (902,902); (904,906); (908,908);
    (910,929); (931,1013); (1015,1153); (1162,1327); (1329,1366); (1376,1416);
    (4256,4293); (4295,4295); (4301,4301); (4304,4346); (4349,4351);
    (5024,5109); (5112,5117); (7296,7304); (7312,7354); (7357,7359);
    (7424,7615); (7680,7957); (7960,7965); (7968,8005); (8008,8013);
    (8016,8023); (8025,8025); (8027,8027); (8029,8029); (8031,8061);
    (8064,8116); (8118,8124); (8126,8126); (8130,8132); (8134,8140);
    (8144,8147); (8150,8155); (8160,8172); (8178,8180); (8182,8188);
    (8305,8305); (8319,8319); (8336,8348); (8450,8450); (8455,8455);
    (8458,8467); (8469,8469); (8473,8477); (8484,8484); (8486,8486);
    (8488,8488); (8490,8493); (8495,8500); (8505,8505); (8508,8511);
    (8517,8521); (8526,8526); (8544,8575); (8579,8580); (9398,9449);
    (11264,11492); (11499,11502); (11506,11507); (11520,11557); (11559,11559);
    (11565,11565); (42560,42605); (42624,42653); (42786,42887); (42891,42894);
    (42896,42954); (42960,42961); (42963,42963); (42965,42969); (42997,42998);
    (43000,43002); (43824,43866); (43868,43880); (43888,43967); (64256,64262);
    (64275,64279); (65313,65338); (65345,65370); (66560,66639); (66736,66771);
    (66776,66811); (66928,66938); (66940,66954); (66956,66962); (66964,66965);
    (66967,66977); (66979,66993); (66995,67001); (67003,67004); (67456,67456);
    (67459,67461); (67463,67504); (67506,67514); (68736,68786); (68800,68850);
    (71840,71903); (93760,93823); (119808,119892); (119894,119964);
    (119966,119967); (119970,119970); (119973,119974); (119977,119980);
    (119982,119993); (119995,119995); (119997,120003); (120005,120069);
    (120071,120074); (120077,120084); (120086,120092); (120094,120121);
    (120123,120126); (120128,120132); (120134,120134); (120138,120144);
    (120146,120485); (120488,120512); (120514,120538); (120540,120570);
    (120572,120596); (120598,120628); (120630,120654); (120656,120686);
    (120688,120712); (120714,120744); (120746,120770); (120772,120779);
    (122624,122633); (122635,122654); (125184,125251); (127280,127305);
    (127312,127337); (127344,127369) ]%N.

End Unicode.

(* ================================================================== *)
(** ** Python strings *)

Module PyStr.

(** A [str]: its code points, in order. *)
Definition t := list N.

Definition ord (c : ascii) : N := N_of_ascii c.

(** An ASCII literal as a [str]. *)
Definition of_string (s : string) : t := map ord (list_ascii_of_string s).

Fixpoint eqb (a b : t) : bool :=
  match a, b with
  | [], [] => true
  | x :: a', y :: b' => (x =? y)%N && eqb a' b'
  | _, _ => false
  end.

Definition in_ranges (rs : list (N * N)) (c : N) : bool :=
  existsb (fun r => ((fst r <=? c) && (c <=? snd r))%N) rs.

(** [c.isalnum()] for a one-character string. *)
Definition char_isalnum (c : N) : bool :=
  in_ranges Unicode.alnum_ranges c.

Definition case_ignorable (c : N) : bool :=
  in_ranges Unicode.case_ignorable_ranges c.

Definition cased (c : N) : bool :=
  in_ranges Unicode.cased_ranges c.

Definition in_lower_range (c : N) (r : N * N * N) : bool :=
  ((fst (fst r) <=? c) && (c <=? snd (fst r)))%N.

(** The lower-case form of a character that has a one-character one;
    every other character is left alone. *)
Definition simple_lower (c : N) : N :=
  match find (in_lower_range c) Unicode.lower_ranges with
  | Some (lo, _, target) => (c - lo + target)%N
  | None => c
  end.

(** [c.lower()] for a one-character string: [U+0130] alone has a
    two-character lower-case form. *)
Definition char_lower (c : N) : t :=
  if (c =? 304)%N then [105; 775]%N else [simple_lower c].

Fixpoint skip_case_ignorable (s : t) : t :=
  match s with
  | [] => []
  | c :: s' => if case_ignorable c then skip_case_ignorable s' else s
  end.

(** Whether a capital sigma is in final position: going back over
    case-ignorable characters there is a cased character, and going forward
    over case-ignorable characters there is none. [before] holds the
    characters before the sigma, nearest first. *)
Definition final_sigma (before after : t) : bool :=
  match skip_case_ignorable before with
  | [] => false
  | c :: _ =>
      cased c
      && match skip_case_ignorable after with
         | [] => true
         | d :: _ => negb (cased d)
         end
  end.

Fixpoint lower_from (before s : t) : t :=
  match s with
  | [] => []
  | c :: s' =>
      ((if (c =? 931)%N
        then [if final_sigma before s' then 962%N else 963%N]
        else char_lower c)
       ++ lower_from (c :: before) s')%list
  end.

(** [s.lower()]. *)
Definition lower (s : t) : t := lower_from [] s.

Fixpoint all_chars (p : N -> bool) (s : t) : bool :=
  match s with
  | [] => true
  | c :: s' => p c && all_chars p s'
  end.

Fixpoint any_char (p : N -> bool) (s : t) : bool :=
  match s with
  | [] => false
  | c :: s' => p c || any_char p s'
  end.

(** [s.isalnum()]: every character is alphanumeric and there is at least
    one character. *)
Definition isalnum (s : t) : bool :=
  match s with
  | [] => false
  | _ :: _ => all_chars char_isalnum s
  end.

(** [s.replace(old, new)] for a one-character [old]. *)
Fixpoint replace (old : N) (new : t) (s : t) : t :=
  match s with
  | [] => []
  | c :: s' =>
      if (c =? old)%N then (new ++ replace old new s')%list
      else c :: replace old new s'
  end.

(** [len(s)]. *)
Definition len (s : t) : Z := Z.of_nat (List.length s).

End PyStr.

(** An ASCII literal as a [str]. *)
Definition py (s : string) : PyStr.t := PyStr.of_string s.

(* ================================================================== *)
(** ** models.py *)

Definition datetime := Z.

Module UserCreate.
Record t := mk { email : PyStr.t; username : PyStr.t }.
End UserCreate.

Module User.
Record t := mk {
  email : PyStr.t;
  username : PyStr.t;
  id : option Z;
  created_at : datetime;
  updated_at : datetime
}.
End User.

Module UserResponse.
Record t := mk {
  email : PyStr.t;
  username : PyStr.t;
  id : Z;
  created_at : datetime;
  updated_at : datetime
}.
End UserResponse.

Module UserBase.

(** The body of the [@validator('username')] method: [None] stands for the
    [ValueError]. *)
Definition validate_username (v : PyStr.t) : option PyStr.t :=
  if negb (PyStr.isalnum
             (PyStr.replace (PyStr.ord "-") (py "")
                (PyStr.replace (PyStr.ord "_") (py "") v)))
  then None
  else Some (PyStr.lower v).

(** The [username] field: [min_length=3], [max_length=50] on the value as
    given, then the validator. *)
Definition username_field (v : PyStr.t) : option PyStr.t :=
  if (3 <=? PyStr.len v) && (PyStr.len v <=? 50)
  then validate_username v
  else None.

(** The characters the validator's error message allows. *)
Definition char_allowed (c : N) : bool :=
  PyStr.char_isalnum c || (c =? PyStr.ord "-")%N || (c =? PyStr.ord "_")%N.

End UserBase.

(* ================================================================== *)
(** ** Replies and the table *)

(** The exceptions the generic [except Exception] clauses can catch. *)
Inductive Exception := ValidationError | IntegrityError | DataError.

(** A [detail] is a literal, or an f-string made of a literal prefix and
    [str(e)] of the caught exception, or the list of field errors the
    framework attaches to a 422. *)
Inductive Detail :=
| Text (s : string)
| TextExc (prefix : string) (e : Exception)
| FieldErrors.

Record HTTPException := mkHTTPException { status_code : Z; detail : Detail }.

Inductive Reply (A : Type) :=
| Return (status : Z) (body : A)
| Raise (e : HTTPException).
Arguments Return {A} status body.
Arguments Raise {A} e.

(** The [users] table as the list of its rows, oldest first; the sequence
    behind the primary key; the number of clock readings taken so far. *)
Record State := mkState {
  rows : list User.t;
  next_id : Z;
  ticks : nat
}.

Definition init : State := {| rows := []; next_id := 1; ticks := 0 |}.

Definition has_id (i : Z) (u : User.t) : bool :=
  match User.id u with
  | Some j => j =? i
  | None => false
  end.

Definition has_email (e : PyStr.t) (u : User.t) : bool :=
  PyStr.eqb (User.email u) e.

Definition has_username (v : PyStr.t) (u : User.t) : bool :=
  PyStr.eqb (User.username u) v.

(** [select(User).where(User.email == e)] followed by [.first()]. *)
Definition first_by_email (s : State) (e : PyStr.t) : option User.t :=
  find (has_email e) (rows s).

(** [select(User).where(User.username == v)] followed by [.first()]. *)
Definition first_by_username (s : State) (v : PyStr.t) : option User.t :=
  find (has_username v) (rows s).

(** [session.get(User, i)]. *)
Definition session_get (s : State) (i : Z) : option User.t :=
  find (has_id i) (rows s).

(** The largest value of the database's [bigint]. *)
Definition bigint_max : Z := 2 ^ 63 - 1.

(** [select(User).offset(skip).limit(limit)] followed by [.all()]; the
    database refuses a negative offset or limit, and one that does not fit
    its [bigint]. *)
Definition offset_limit (s : State) (skip limit : Z)
  : Exception + list User.t :=
  if (skip <? 0) || (limit <? 0)
     || (bigint_max <? skip) || (bigint_max <? limit)
  then inl DataError
  else inr (firstn (Z.to_nat limit) (skipn (Z.to_nat skip) (rows s))).

(** [session.add(u); session.commit(); session.refresh(u)]: a row without
    an id takes the next value of the sequence; the primary key and the two
    [unique=True] columns are checked by the table, and a refused insert
    leaves the rows as they were. *)
Definition add_commit_refresh (s : State) (u : User.t)
  : (Exception + User.t) * State :=
  let i := match User.id u with Some i => i | None => next_id s end in
  let s1 := match User.id u with
            | Some _ => s
            | None => {| rows := rows s; next_id := next_id s + 1;
                         ticks := ticks s |}
            end in
  if existsb (fun r => has_id i r || has_email (User.email u) r
                       || has_username (User.username u) r) (rows s)
  then (inl IntegrityError, s1)
  else
    let u' := User.mk (User.email u) (User.username u) (Some i)
                      (User.created_at u) (User.updated_at u) in
    (inr u', {| rows := rows s ++ [u']; next_id := next_id s1;
                ticks := ticks s1 |}).

(** [session.delete(u); session.commit()]: the row with [u]'s primary key
    goes. *)
Definition delete_commit (s : State) (u : User.t) : State :=
  {| rows := filter (fun r => negb (match User.id u with
                                    | Some i => has_id i r
                                    | None => false
                                    end)) (rows s);
     next_id := next_id s;
     ticks := ticks s |}.

(* ================================================================== *)
(** ** Schema validation and the handlers of main.py *)

Section Service.

Set Default Proof Using "Type".

Variable utcnow : nat -> datetime.
Variable EmailStr_validate : PyStr.t -> option PyStr.t.

(** The two fields every schema class inherits from [UserBase]. *)
Definition UserBase_fields (e v : PyStr.t) : option (PyStr.t * PyStr.t) :=
  match EmailStr_validate e, UserBase.username_field v with
  | Some e', Some v' => Some (e', v')
  | _, _ => None
  end.

(** The request body parsed into a [UserCreate]. *)
Definition UserCreate_model_validate (e v : PyStr.t)
  : option UserCreate.t :=
  match UserBase_fields e v with
  | Some (e', v') => Some (UserCreate.mk e' v')
  | None => None
  end.

(** [User.model_validate(user)]: the inherited fields are validated again,
    [id] defaults to [None], and each of [created_at] and [updated_at]
    calls its own [default_factory], in this order. *)
Definition User_model_validate (s : State) (user : UserCreate.t)
  : option User.t * State :=
  let created := utcnow (ticks s) in
  let updated := utcnow (S (ticks s)) in
  let s' := {| rows := rows s; next_id := next_id s;
               ticks := S (S (ticks s)) |} in
  match UserBase_fields (UserCreate.email user)
                        (UserCreate.username user) with
  | Some (e, v) => (Some (User.mk e v None created updated), s')
  | None => (None, s')
  end.

(** [UserResponse.model_validate(u)]: the inherited fields are validated
    again and [id] must be an integer. *)
Definition UserResponse_model_validate (u : User.t)
  : option UserResponse.t :=
  match UserBase_fields (User.email u) (User.username u), User.id u with
  | Some (e, v), Some i =>
      Some (UserResponse.mk e v i (User.created_at u) (User.updated_at u))
  | _, _ => None
  end.

Fixpoint validate_all (us : list User.t) : option (list UserResponse.t) :=
  match us with
  | [] => Some []
  | u :: us' =>
      match UserResponse_model_validate u, validate_all us' with
      | Some r, Some rs => Some (r :: rs)
      | _, _ => None
      end
  end.

Definition http (code : Z) (msg : string) : HTTPException :=
  {| status_code := code; detail := Text msg |}.

Definition http500 (prefix : string) (e : Exception) : HTTPException :=
  {| status_code := 500; detail := TextExc prefix e |}.

(** [POST /users/] *)
Definition create_user (s : State) (user : UserCreate.t)
  : Reply UserResponse.t * State :=
  match first_by_email s (UserCreate.email user) with
  | Some _ => (Raise (http 400 "Email already registered"), s)
  | None =>
      match first_by_username s (UserCreate.username user) with
      | Some _ => (Raise (http 400 "Username already taken"), s)
      | None =>
          match User_model_validate s user with
          | (None, s1) =>
              (Raise (http500 "Failed to create user: " ValidationError), s1)
          | (Some db_user, s1) =>
              match add_commit_refresh s1 db_user with
              | (inl e, s2) =>
                  (Raise (http500 "Failed to create user: " e), s2)
              | (inr db_user', s2) =>
                  match UserResponse_model_validate db_user' with
                  | Some r => (Return 201 r, s2)
                  | None =>
                      (Raise (http500 "Failed to create user: "
                                      ValidationError), s2)
                  end
              end
          end
      end
  end.

(** [GET /users/] *)
Definition get_users (s : State) (skip limit : Z)
  : Reply (list UserResponse.t) :=
  match offset_limit s skip limit with
  | inl e => Raise (http500 "Failed to fetch users: " e)
  | inr users =>
      match validate_all users with
      | Some rs => Return 200 rs
      | None => Raise (http500 "Failed to fetch users: " ValidationError)
      end
  end.

(** [GET /users/{user_id}] *)
Definition get_user (s : State) (user_id : Z) : Reply UserResponse.t :=
  match session_get s user_id with
  | None => Raise (http 404 "User not found")
  | Some user =>
      match UserResponse_model_validate user with
      | Some r => Return 200 r
      | None => Raise (http500 "Failed to fetch user: " ValidationError)
      end
  end.

(** [GET /users/email/{email}] *)
Definition get_user_by_email (s : State) (email : PyStr.t)
  : Reply UserResponse.t :=
  match first_by_email s email with
  | None => Raise (http 404 "User not found")
  | Some user =>
      match UserResponse_model_validate user with
      | Some r => Return 200 r
      | None => Raise (http500 "Failed to fetch user: " ValidationError)
      end
  end.

(** [DELETE /users/{user_id}] *)
Definition delete_user (s : State) (user_id : Z) : Reply string * State :=
  match session_get s user_id with
  | None => (Raise (http 404 "User not found"), s)
  | Some user => (Return 200 "User deleted successfully", delete_commit s user)
  end.

(** *** The routes *)

Inductive Request :=
| POST_users (email username : PyStr.t)
| GET_users (skip limit : Z)
| GET_user (user_id : Z)
| GET_user_by_email (email : PyStr.t)
| DELETE_user (user_id : Z).

(** A request body that does not parse into a [UserCreate] is answered
    with 422 before the handler runs. *)
Definition post_users (s : State) (e v : PyStr.t)
  : Reply UserResponse.t * State :=
  match UserCreate_model_validate e v with
  | None => (Raise {| status_code := 422; detail := FieldErrors |}, s)
  | Some user => create_user s user
  end.

(** The state after a request. *)
Definition step (s : State) (req : Request) : State :=
  match req with
  | POST_users e v => snd (post_users s e v)
  | DELETE_user i => snd (delete_user s i)
  | GET_users _ _ | GET_user _ | GET_user_by_email _ => s
  end.

Inductive reachable : State -> Prop :=
| reachable_init : reachable init
| reachable_step s req : reachable s -> reachable (step s req).

(** [N] creations in sequence, all answered 201: the replies in order and
    the final state. *)
Fixpoint create_all (s : State) (ps : list (PyStr.t * PyStr.t))
  : option (list UserResponse.t * State) :=
  match ps with
  | [] => Some ([], s)
  | (e, v) :: ps' =>
      match post_users s e v with
      | (Return status r, s1) =>
          if status =? 201 then
            match create_all s1 ps' with
            | Some (rs, s2) => Some (r :: rs, s2)
            | None => None
            end
          else None
      | (Raise _, _) => None
      end
  end.

(** *** Predicates used in the statements and proofs *)

(** What the two [replace] calls leave of a username. *)
Definition stripped (v : PyStr.t) : PyStr.t :=
  PyStr.replace (PyStr.ord "-") (py "")
    (PyStr.replace (PyStr.ord "_") (py "") v).

(** Some row has exactly this email / this username. *)
Definition email_registered (s : State) (e : PyStr.t) : Prop :=
  exists u, In u (rows s) /\ User.email u = e.

Definition username_taken (s : State) (v : PyStr.t) : Prop :=
  exists u, In u (rows s) /\ User.username u = v.

(** The row a successful creation inserts. *)
Definition new_row (s : State) (e v : PyStr.t) : User.t :=
  User.mk e v (Some (next_id s))
          (utcnow (ticks s)) (utcnow (S (ticks s))).

(** No row of [s] has the id, the email or the username of the row to
    insert. *)
Definition no_clash (s : State) (e v : PyStr.t) : Prop :=
  forall x, In x (rows s) ->
    User.id x <> Some (next_id s) /\ User.email x <> e
    /\ User.username x <> v.

Definition is_raise {A} (rep : Reply A) : Prop :=
  match rep with Raise _ => True | Return _ _ => False end.

(** A stored row has an id already handed out by the sequence, a username
    in validated form, and two successive clock readings as timestamps. *)
Definition row_ok (s : State) (u : User.t) : Prop :=
  (exists i, User.id u = Some i /\ 1 <= i < next_id s)
  /\ UserBase.username_field (User.username u) = Some (User.username u)
  /\ (exists n, (S n < ticks s)%nat
                /\ User.created_at u = utcnow n
                /\ User.updated_at u = utcnow (S n)).

(** The invariant of the table. *)
Record Inv (s : State) : Prop := mkInv {
  inv_ids : NoDup (map User.id (rows s));
  inv_emails : NoDup (map User.email (rows s));
  inv_usernames : NoDup (map User.username (rows s));
  inv_rows : Forall (row_ok s) (rows s);
  inv_next : 1 <= next_id s
}.

(** Every stored row passes the inherited field validation unchanged. *)
Definition rows_validated (s : State) : Prop :=
  forall u, In u (rows s) ->
    UserBase_fields (User.email u) (User.username u)
    = Some (User.email u, User.username u).

(** [r] is the field-for-field copy of the stored row [u]. *)
Definition is_view (u : User.t) (r : UserResponse.t) : Prop :=
  User.id u = Some (UserResponse.id r)
  /\ User.email u = UserResponse.email r
  /\ User.username u = UserResponse.username r
  /\ User.created_at u = UserResponse.created_at r
  /\ User.updated_at u = UserResponse.updated_at r.

(** The state after a list of requests, oldest first. *)
Fixpoint run (s : State) (reqs : list Request) : State :=
  match reqs with
  | [] => s
  | req :: reqs' => run (step s req) reqs'
  end.

(** [d] is left alone by [str.lower]: it is no capital sigma, not
    [U+0130], and no lower-case mapping starts from it. *)
Definition is_fixed (d : N) : bool :=
  negb (d =? 931)%N && negb (d =? 304)%N
  && negb (existsb (PyStr.in_lower_range d) Unicode.lower_ranges).

(** The images of the mapping [r] lie outside every range a mapping starts
    from, and are neither [U+0130] nor the capital sigma. *)
Definition range_image_fixed (r : N * N * N) : bool :=
  let '(lo, hi, target) := r in
  forallb (fun r' => ((snd (fst r') <? target)
                      || (target + (hi - lo) <? fst (fst r')))%N)
          Unicode.lower_ranges
  && ((304 <? target) || (target + (hi - lo) <? 304))%N
  && ((931 <? target) || (target + (hi - lo) <? 931))%N.

(** Some character of [v] is outside the letters, digits, hyphen and
    underscore. *)
Definition has_forbidden_char (v : PyStr.t) : bool :=
  PyStr.any_char (fun c => negb (UserBase.char_allowed c)) v.

(** The two clock readings of [u1] were taken before the two of [u2]. *)
Definition stamped_before (u1 u2 : User.t) : Prop :=
  exists n1 n2,
    (S n1 < n2)%nat
    /\ User.created_at u1 = utcnow n1 /\ User.updated_at u1 = utcnow (S n1)
    /\ User.created_at u2 = utcnow n2 /\ User.updated_at u2 = utcnow (S n2).

(** *** A sample clock, validator and table, for the examples that close
    the file *)

(** A clock that advances by one microsecond at each reading. *)
Definition ticking_clock (n : nat) : datetime :=
  1700000000000000 + Z.of_nat n.

(** ASCII lower-casing of one character. *)
Definition ascii_lower (c : N) : N :=
  if ((65 <=? c) && (c <=? 90))%N then (c + 32)%N else c.

(** An address split at its first [@]. *)
Fixpoint split_at_sign (e : PyStr.t) : option (PyStr.t * PyStr.t) :=
  match e with
  | [] => None
  | c :: e' =>
      if (c =? 64)%N then Some ([], e')
      else match split_at_sign e' with
           | Some (l, d) => Some (c :: l, d)
           | None => None
           end
  end.

(** A stand-in for the address validator: an address is a non-empty local
    part, one [@] and a non-empty domain; the local part is returned as it
    is and the domain in lower case. *)
Definition at_sign_validate (e : PyStr.t) : option PyStr.t :=
  match split_at_sign e with
  | Some (c :: l, d :: ds) =>
      if PyStr.any_char (N.eqb 64) (d :: ds) then None
      else Some ((c :: l) ++ 64%N :: map ascii_lower (d :: ds))%list
  | _ => None
  end.

Definition alice_row : User.t :=
  User.mk (py "a@x.com") (py "alice") (Some 1)
          (ticking_clock 0) (ticking_clock 1).

Definition alice_view : UserResponse.t :=
  UserResponse.mk (py "a@x.com") (py "alice") 1
                  (ticking_clock 0) (ticking_clock 1).

(** The state after [POST /users/] with [a@x.com] and [Alice] on the empty
    table. *)
Definition s_alice : State :=
  {| rows := [alice_row]; next_id := 2; ticks := 2 |}.

Definition three_payloads : list (PyStr.t * PyStr.t) :=
  [(py "a@x.com", py "Alice"); (py "b@x.com", py "bob_1");
   (py "c@x.com", py "Carol-2")].

(* ================================================================ *)
(** ** Characters and strings *)

Lemma PyStr_eqb_eq a b : PyStr.eqb a b = true <-> a = b.
Proof.
  revert b. induction a as [|x a IH]; intros [|y b]; simpl;
    try (split; [discriminate | discriminate]); [tauto|].
  rewrite andb_true_iff, N.eqb_eq, IH. split.
  - intros [-> ->]. reflexivity.
  - intros [= -> ->]. auto.
Qed.

Lemma PyStr_eqb_refl a : PyStr.eqb a a = true.
Proof. now apply PyStr_eqb_eq. Qed.

Lemma char_isalnum_not_punct c :
  PyStr.char_isalnum c = true ->
  (c =? PyStr.ord "_")%N = false /\ (c =? PyStr.ord "-")%N = false.
Proof.
  intros H. split.
  - destruct (N.eqb_spec c (PyStr.ord "_")) as [->|]; [|reflexivity].
    vm_compute in H. discriminate.
  - destruct (N.eqb_spec c (PyStr.ord "-")) as [->|]; [|reflexivity].
    vm_compute in H. discriminate.
Qed.

Lemma char_allowed_cases c :
  UserBase.char_allowed c =
  if (c =? PyStr.ord "_")%N then true
  else if (c =? PyStr.ord "-")%N then true
  else PyStr.char_isalnum c.
Proof.
  unfold UserBase.char_allowed.
  destruct (c =? PyStr.ord "_")%N; [apply orb_true_r|].
  destruct (c =? PyStr.ord "-")%N; [now rewrite orb_true_r|].
  now rewrite !orb_false_r.
Qed.

Lemma stripped_cons c v :
  stripped (c :: v) =
  if (c =? PyStr.ord "_")%N then stripped v
  else if (c =? PyStr.ord "-")%N then stripped v
  else c :: stripped v.
Proof.
  unfold stripped. cbn [PyStr.replace].
  destruct (c =? PyStr.ord "_")%N; [reflexivity|].
  cbn [PyStr.replace].
  destruct (c =? PyStr.ord "-")%N; reflexivity.
Qed.

Lemma all_isalnum_stripped v :
  PyStr.all_chars PyStr.char_isalnum (stripped v) =
  PyStr.all_chars UserBase.char_allowed v.
Proof.
  induction v as [|c v IH]; [reflexivity|].
  rewrite stripped_cons. cbn [PyStr.all_chars].
  rewrite char_allowed_cases.
  destruct (c =? PyStr.ord "_")%N; [exact IH|].
  destruct (c =? PyStr.ord "-")%N; [exact IH|].
  cbn [PyStr.all_chars]. now rewrite IH.
Qed.

(** The test of [validate_username], character by character: every
    character is allowed, and at least one of them is alphanumeric. *)
Lemma isalnum_stripped v :
  PyStr.isalnum (stripped v) =
  PyStr.all_chars UserBase.char_allowed v
  && PyStr.any_char PyStr.char_isalnum v.
Proof.
  induction v as [|c v IH]; [reflexivity|].
  rewrite stripped_cons. cbn [PyStr.all_chars PyStr.any_char].
  rewrite char_allowed_cases.
  destruct (c =? PyStr.ord "_")%N eqn:Hu.
  { rewrite IH. destruct (PyStr.char_isalnum c) eqn:Ha; [|reflexivity].
    apply char_isalnum_not_punct in Ha. destruct Ha; congruence. }
  destruct (c =? PyStr.ord "-")%N eqn:Hh.
  { rewrite IH. destruct (PyStr.char_isalnum c) eqn:Ha; [|reflexivity].
    apply char_isalnum_not_punct in Ha. destruct Ha; congruence. }
  unfold PyStr.isalnum. cbn [PyStr.all_chars].
  rewrite all_isalnum_stripped.
  destruct (PyStr.char_isalnum c); simpl; [|reflexivity].
  now rewrite andb_true_r.
Qed.

(** *** [str.lower] is idempotent *)

Lemma find_None {A} (p : A -> bool) l :
  find p l = None <-> forall x, In x l -> p x = false.
Proof.
  split; [apply find_none|].
  induction l as [|a l IH]; intros H; simpl; [reflexivity|].
  rewrite (H a (or_introl eq_refl)). apply IH. intros; apply H; now right.
Qed.

Lemma existsb_false {A} (p : A -> bool) l :
  existsb p l = false <-> forall x, In x l -> p x = false.
Proof.
  induction l as [|a l IH]; simpl.
  - split; [contradiction | reflexivity].
  - rewrite orb_false_iff, IH. split.
    + intros [Ha Hl] x [<-|Hx]; auto.
    + intros H. split; [apply H; now left | intros; apply H; now right].
Qed.

Lemma lower_ranges_checked :
  forallb range_image_fixed Unicode.lower_ranges = true.
Proof. vm_compute. reflexivity. Qed.

Lemma is_fixed_char_lower d :
  is_fixed d = true ->
  (d =? 931)%N = false /\ PyStr.char_lower d = [d].
Proof.
  unfold is_fixed. rewrite !andb_true_iff, !negb_true_iff.
  intros [[H931 H304] Hno]. split; [exact H931|].
  unfold PyStr.char_lower, PyStr.simple_lower. rewrite H304.
  replace (find (PyStr.in_lower_range d) Unicode.lower_ranges)
    with (@None (N * N * N)); [reflexivity|].
  symmetry. apply find_None. now apply existsb_false.
Qed.

Lemma simple_lower_is_fixed c :
  (c =? 304)%N = false -> (c =? 931)%N = false ->
  is_fixed (PyStr.simple_lower c) = true.
Proof.
  intros H304 H931. unfold PyStr.simple_lower.
  destruct (find (PyStr.in_lower_range c) Unicode.lower_ranges)
    as [[[lo hi] target]|] eqn:Hf.
  - apply find_some in Hf as [Hin Hr].
    unfold PyStr.in_lower_range in Hr. cbn [fst snd] in Hr.
    apply andb_prop in Hr as [Hlo Hhi].
    apply N.leb_le in Hlo. apply N.leb_le in Hhi.
    pose proof lower_ranges_checked as Hall.
    rewrite forallb_forall in Hall. specialize (Hall _ Hin).
    unfold range_image_fixed in Hall.
    apply andb_prop in Hall as [Hall Hs]. apply andb_prop in Hall as [Hall Hi].
    rewrite forallb_forall in Hall.
    unfold is_fixed. rewrite !andb_true_iff, !negb_true_iff.
    repeat split.
    + apply N.eqb_neq. apply orb_prop in Hs as [Hs|Hs];
        apply N.ltb_lt in Hs; lia.
    + apply N.eqb_neq. apply orb_prop in Hi as [Hi|Hi];
        apply N.ltb_lt in Hi; lia.
    + apply existsb_false. intros r' Hr'. specialize (Hall r' Hr').
      unfold PyStr.in_lower_range. apply andb_false_iff.
      destruct r' as [[lo' hi'] t']. cbn [fst snd] in *.
      apply orb_prop in Hall as [Hd|Hd]; apply N.ltb_lt in Hd.
      * right. apply N.leb_gt. lia.
      * left. apply N.leb_gt. lia.
  - unfold is_fixed. rewrite H304, H931. cbn [negb andb].
    apply negb_true_iff. apply existsb_false. now apply find_None.
Qed.

Lemma char_lower_is_fixed c :
  (c =? 931)%N = false -> forallb is_fixed (PyStr.char_lower c) = true.
Proof.
  intros H931. unfold PyStr.char_lower.
  destruct (c =? 304)%N eqn:H304; [vm_compute; reflexivity|].
  cbn [forallb]. now rewrite simple_lower_is_fixed.
Qed.

Lemma lower_from_is_fixed s : forall before,
  forallb is_fixed (PyStr.lower_from before s) = true.
Proof.
  induction s as [|c s IH]; intros before; [reflexivity|].
  cbn [PyStr.lower_from]. rewrite forallb_app, IH, andb_true_r.
  destruct (c =? 931)%N eqn:H931; [|now apply char_lower_is_fixed].
  destruct (PyStr.final_sigma before s); vm_compute; reflexivity.
Qed.

Lemma lower_from_fixed s : forall before,
  forallb is_fixed s = true -> PyStr.lower_from before s = s.
Proof.
  induction s as [|c s IH]; intros before H; [reflexivity|].
  cbn [forallb] in H. apply andb_prop in H as [Hc Hs].
  apply is_fixed_char_lower in Hc as [H931 Hl].
  cbn [PyStr.lower_from]. rewrite H931, Hl, (IH _ Hs). reflexivity.
Qed.

Lemma lower_idem v : PyStr.lower (PyStr.lower v) = PyStr.lower v.
Proof. apply lower_from_fixed, lower_from_is_fixed. Qed.

(** *** The username validator *)

Lemma validate_username_eq v :
  UserBase.validate_username v =
  if PyStr.all_chars UserBase.char_allowed v
     && PyStr.any_char PyStr.char_isalnum v
  then Some (PyStr.lower v) else None.
Proof.
  unfold UserBase.validate_username. fold (stripped v).
  rewrite isalnum_stripped.
  now destruct (_ && _).
Qed.

Lemma username_field_Some v v' :
  UserBase.username_field v = Some v' ->
  v' = PyStr.lower v /\ 3 <= PyStr.len v <= 50
  /\ PyStr.all_chars UserBase.char_allowed v = true
  /\ PyStr.any_char PyStr.char_isalnum v = true.
Proof.
  unfold UserBase.username_field.
  destruct (_ && _) eqn:Hlen; [|discriminate].
  rewrite validate_username_eq.
  destruct (PyStr.all_chars _ v && _) eqn:Hok; [|discriminate].
  intros [= <-].
  apply andb_prop in Hlen as [H3 H50]. apply andb_prop in Hok as [Ha Hb].
  repeat split; auto; lia.
Qed.

(** A username in lower case that passes the field validation comes back
    unchanged, and passes it again. *)
Lemma username_field_fixed v v' :
  PyStr.lower v = v ->
  UserBase.username_field v = Some v' ->
  v' = v /\ UserBase.username_field v' = Some v'.
Proof.
  intros Hl H. pose proof (username_field_Some _ _ H) as [Hv _].
  rewrite Hl in Hv. subst v'. auto.
Qed.

(* ================================================================ *)
(** ** Lookups *)

Lemma has_email_true e u : has_email e u = true <-> User.email u = e.
Proof. apply PyStr_eqb_eq. Qed.

Lemma has_username_true v u :
  has_username v u = true <-> User.username u = v.
Proof. apply PyStr_eqb_eq. Qed.

Lemma has_id_true i u : has_id i u = true <-> User.id u = Some i.
Proof.
  unfold has_id. destruct (User.id u) as [j|].
  - rewrite Z.eqb_eq. split; congruence.
  - split; discriminate.
Qed.

Lemma first_by_email_None s e :
  first_by_email s e = None <-> ~ email_registered s e.
Proof.
  unfold first_by_email, email_registered. rewrite find_None. split.
  - intros H (u & Hin & He). apply has_email_true in He.
    rewrite (H u Hin) in He. discriminate.
  - intros H u Hin. destruct (has_email e u) eqn:E; [|reflexivity].
    exfalso. apply H. exists u. split; [assumption|].
    now apply has_email_true.
Qed.

Lemma first_by_username_None s v :
  first_by_username s v = None <-> ~ username_taken s v.
Proof.
  unfold first_by_username, username_taken. rewrite find_None. split.
  - intros H (u & Hin & He). apply has_username_true in He.
    rewrite (H u Hin) in He. discriminate.
  - intros H u Hin. destruct (has_username v u) eqn:E; [|reflexivity].
    exfalso. apply H. exists u. split; [assumption|].
    now apply has_username_true.
Qed.

Lemma first_by_email_Some s e :
  email_registered s e -> exists u, first_by_email s e = Some u.
Proof.
  intros H. destruct (first_by_email s e) eqn:E; [eauto|].
  apply first_by_email_None in E. contradiction.
Qed.

Lemma first_by_username_Some s v :
  username_taken s v -> exists u, first_by_username s v = Some u.
Proof.
  intros H. destruct (first_by_username s v) eqn:E; [eauto|].
  apply first_by_username_None in E. contradiction.
Qed.

(* ================================================================ *)
(** ** What a creation does to the table *)

(** Either nothing is inserted and an error is raised, or the checks all
    passed and exactly [new_row] is appended. *)
Lemma create_user_shape s user rep s' :
  create_user s user = (rep, s') ->
  (rows s' = rows s /\ next_id s <= next_id s'
   /\ (ticks s <= ticks s')%nat /\ is_raise rep)
  \/
  (exists e v,
      UserBase_fields (UserCreate.email user) (UserCreate.username user)
      = Some (e, v)
      /\ first_by_email s (UserCreate.email user) = None
      /\ first_by_username s (UserCreate.username user) = None
      /\ no_clash s e v
      /\ s' = {| rows := rows s ++ [new_row s e v];
                 next_id := next_id s + 1;
                 ticks := S (S (ticks s)) |}
      /\ rep = match UserResponse_model_validate (new_row s e v) with
               | Some r => Return 201 r
               | None => Raise (http500 "Failed to create user: "
                                        ValidationError)
               end).
Proof.
  unfold create_user.
  destruct (first_by_email s _) eqn:He.
  { intros [= <- <-]. left. simpl. repeat split; lia. }
  destruct (first_by_username s _) eqn:Hv.
  { intros [= <- <-]. left. simpl. repeat split; lia. }
  unfold User_model_validate.
  destruct (UserBase_fields _ _) as [[e v]|] eqn:Hf.
  2:{ intros [= <- <-]. left. simpl. repeat split; lia. }
  unfold add_commit_refresh. cbn [User.id User.email User.username rows].
  destruct (existsb _ (rows s)) eqn:Hx.
  { intros [= <- <-]. left. simpl. repeat split; lia. }
  cbn [next_id ticks User.created_at User.updated_at].
  fold (new_row s e v). intros H. right. exists e, v.
  assert (Hnc : no_clash s e v).
  { intros x Hin. rewrite existsb_false in Hx. specialize (Hx x Hin).
    apply orb_false_iff in Hx as [Hx Hu].
    apply orb_false_iff in Hx as [Hi Hm]. cbn [next_id] in Hi.
    repeat split; intros Habs.
    - apply has_id_true in Habs. congruence.
    - apply has_email_true in Habs. congruence.
    - apply has_username_true in Habs. congruence. }
  destruct (UserResponse_model_validate (new_row s e v));
    inversion H; subst; auto 10.
Qed.

(** Either the id is unknown and nothing changes, or the rows with that
    id are filtered out. *)
Lemma delete_user_shape s i rep s' :
  delete_user s i = (rep, s') ->
  (session_get s i = None /\ s' = s
   /\ rep = Raise (http 404 "User not found"))
  \/
  (exists u, session_get s i = Some u /\ In u (rows s)
             /\ User.id u = Some i
             /\ s' = {| rows := filter (fun r => negb (has_id i r)) (rows s);
                        next_id := next_id s; ticks := ticks s |}
             /\ rep = Return 200 "User deleted successfully").
Proof.
  unfold delete_user. destruct (session_get s i) as [u|] eqn:Hg.
  - intros [= <- <-]. right. exists u.
    apply find_some in Hg as [Hin Hid]. apply has_id_true in Hid.
    unfold delete_commit. rewrite Hid. auto.
  - intros [= <- <-]. now left.
Qed.

(* ================================================================ *)
(** ** The invariant of the table *)

Lemma NoDup_map_snoc {A B} (f : A -> B) l x :
  NoDup (map f l) -> (forall y, In y l -> f y <> f x) ->
  NoDup (map f (l ++ [x])).
Proof.
  induction l as [|a l IH]; simpl; intros Hnd Hx.
  - constructor; [intros [] | constructor].
  - inversion Hnd as [|? ? Hna Hnd']; subst. constructor.
    + rewrite map_app, in_app_iff. intros [H|[H|[]]]; [contradiction|].
      apply (Hx a); auto.
    + apply IH; auto.
Qed.

Lemma NoDup_map_filter {A B} (f : A -> B) (p : A -> bool) l :
  NoDup (map f l) -> NoDup (map f (filter p l)).
Proof.
  induction l as [|a l IH]; simpl; intros Hnd; [constructor|].
  inversion Hnd as [|? ? Hna Hnd']; subst.
  destruct (p a); simpl; auto. constructor; auto.
  intros Hin. apply Hna. apply in_map_iff in Hin as (y & Hy & Hin).
  apply filter_In in Hin as [Hin _]. apply in_map_iff. eauto.
Qed.

Lemma row_ok_mono s s' u :
  next_id s <= next_id s' -> (ticks s <= ticks s')%nat ->
  row_ok s u -> row_ok s' u.
Proof.
  intros Hn Ht ((i & Hi & Hr) & Hv & (n & Hlt & Hc & Hu)).
  repeat split; auto.
  - exists i. split; [assumption | lia].
  - exists n. repeat split; auto. lia.
Qed.

Lemma Inv_init : Inv init.
Proof. split; simpl; try constructor. lia. Qed.

Lemma Inv_create s user rep s' :
  Inv s ->
  PyStr.lower (UserCreate.username user) = UserCreate.username user ->
  create_user s user = (rep, s') -> Inv s'.
Proof.
  intros [Hi He Hv Hr Hn1] Hlow H. apply create_user_shape in H.
  destruct H as [(Hrows & Hn & Ht & _) | (e & v & Hf & _ & _ & Hnc & -> & _)].
  - split; try rewrite Hrows; auto; [|lia].
    eapply Forall_impl; [|exact Hr]. intros u. now apply row_ok_mono.
  - split; cbn [rows next_id]; [| | | |lia].
    + apply NoDup_map_snoc; auto. intros y Hy. now apply Hnc.
    + apply NoDup_map_snoc; auto. intros y Hy. now apply Hnc.
    + apply NoDup_map_snoc; auto. intros y Hy. now apply Hnc.
    + apply Forall_app. split.
      * eapply Forall_impl; [|exact Hr]. intros u.
        apply row_ok_mono; simpl; lia.
      * constructor; [|constructor]. unfold row_ok, new_row.
        cbn [User.id User.username User.created_at User.updated_at
             next_id ticks].
        repeat split.
        -- exists (next_id s). split; [reflexivity | lia].
        -- unfold UserBase_fields in Hf.
           destruct (EmailStr_validate _); [|discriminate].
           destruct (UserBase.username_field _) eqn:Hu; [|discriminate].
           inversion Hf; subst.
           now apply (username_field_fixed _ _ Hlow) in Hu as [_ Hu].
        -- exists (ticks s). repeat split; lia.
Qed.

Lemma Inv_delete s i rep s' :
  Inv s -> delete_user s i = (rep, s') -> Inv s'.
Proof.
  intros [Hi He Hv Hr Hn1] H. apply delete_user_shape in H.
  destruct H as [(_ & -> & _) | (u & _ & _ & _ & -> & _)];
    [now split|].
  split; cbn [rows next_id]; auto using NoDup_map_filter.
  apply Forall_forall. intros x Hx. apply filter_In in Hx as [Hx _].
  rewrite Forall_forall in Hr. specialize (Hr x Hx).
  revert Hr. apply row_ok_mono; simpl; lia.
Qed.

(** A payload that passed schema validation carries the lower-case form
    of the username sent, which is its own lower-case form. *)
Lemma UserCreate_username_lower e v user :
  UserCreate_model_validate e v = Some user ->
  UserCreate.username user = PyStr.lower v
  /\ PyStr.lower (UserCreate.username user) = UserCreate.username user.
Proof.
  unfold UserCreate_model_validate, UserBase_fields.
  destruct (EmailStr_validate e); [|discriminate].
  destruct (UserBase.username_field v) as [w|] eqn:Hw; [|discriminate].
  intros [= <-]. cbn [UserCreate.username].
  apply username_field_Some in Hw as [-> _].
  split; [reflexivity | apply lower_idem].
Qed.

Lemma Inv_post s e v rep s' :
  Inv s -> post_users s e v = (rep, s') -> Inv s'.
Proof.
  unfold post_users.
  destruct (UserCreate_model_validate e v) as [user|] eqn:Hu.
  - intros HI. apply Inv_create; [exact HI|].
    now apply UserCreate_username_lower in Hu.
  - now intros H [= <- <-].
Qed.

Lemma Inv_step s req : Inv s -> Inv (step s req).
Proof.
  intros H. destruct req; simpl; auto.
  - destruct (post_users s email username) eqn:E. eapply Inv_post; eauto.
  - destruct (delete_user s user_id) eqn:E. eapply Inv_delete; eauto.
Qed.

Lemma reachable_Inv s : reachable s -> Inv s.
Proof. induction 1; auto using Inv_init, Inv_step. Qed.

(* ================================================================ *)
(** ** Validated payloads *)

Lemma UserBase_fields_Some e v e' v' :
  UserBase_fields e v = Some (e', v') <->
  EmailStr_validate e = Some e' /\ UserBase.username_field v = Some v'.
Proof.
  unfold UserBase_fields.
  destruct (EmailStr_validate e), (UserBase.username_field v);
    split; try intros [H1 H2]; try congruence; try discriminate.
  intros [= -> ->]. auto.
Qed.

Lemma UserCreate_validated e v user :
  UserCreate_model_validate e v = Some user ->
  EmailStr_validate e = Some (UserCreate.email user)
  /\ UserBase.username_field v = Some (UserCreate.username user).
Proof.
  unfold UserCreate_model_validate.
  destruct (UserBase_fields e v) as [[e' v']|] eqn:H; [|discriminate].
  intros [= <-]. now apply UserBase_fields_Some.
Qed.

Lemma UserResponse_of_row u r :
  UserResponse_model_validate u = Some r ->
  exists i,
    User.id u = Some i
    /\ UserBase_fields (User.email u) (User.username u)
       = Some (UserResponse.email r, UserResponse.username r)
    /\ UserResponse.id r = i
    /\ UserResponse.created_at r = User.created_at u
    /\ UserResponse.updated_at r = User.updated_at u.
Proof.
  unfold UserResponse_model_validate.
  destruct (UserBase_fields _ _) as [[e v]|]; [|discriminate].
  destruct (User.id u) as [i|]; [|discriminate].
  intros [= <-]. exists i. simpl. auto.
Qed.

(** With both lookups empty, a payload in validated form is inserted as
    it stands and answered 201. *)
Lemma create_user_fresh s user :
  Inv s ->
  UserBase_fields (UserCreate.email user) (UserCreate.username user)
  = Some (UserCreate.email user, UserCreate.username user) ->
  ~ email_registered s (UserCreate.email user) ->
  ~ username_taken s (UserCreate.username user) ->
  create_user s user =
  (Return 201 (UserResponse.mk (UserCreate.email user)
                               (UserCreate.username user) (next_id s)
                               (utcnow (ticks s)) (utcnow (S (ticks s)))),
   {| rows := rows s
              ++ [new_row s (UserCreate.email user)
                          (UserCreate.username user)];
      next_id := next_id s + 1;
      ticks := S (S (ticks s)) |}).
Proof.
  intros HI Hf He Hv. unfold create_user.
  apply first_by_email_None in He as He'. rewrite He'.
  apply first_by_username_None in Hv as Hv'. rewrite Hv'.
  unfold User_model_validate. rewrite Hf.
  unfold add_commit_refresh.
  cbn [User.id User.email User.username rows next_id ticks
       User.created_at User.updated_at].
  replace (existsb _ (rows s)) with false.
  - fold (new_row s (UserCreate.email user) (UserCreate.username user)).
    unfold UserResponse_model_validate, new_row.
    cbn [User.id User.email User.username User.created_at User.updated_at].
    now rewrite Hf.
  - symmetry. apply existsb_false. intros x Hx.
    destruct HI as [_ _ _ Hr _]. rewrite Forall_forall in Hr.
    destruct (Hr x Hx) as ((i & Hi & Hlt) & _).
    rewrite !orb_false_iff. repeat split.
    + unfold has_id. rewrite Hi. apply Z.eqb_neq. lia.
    + destruct (has_email _ x) eqn:E; [|reflexivity]. exfalso.
      apply He. exists x. split; [assumption | now apply has_email_true].
    + destruct (has_username _ x) eqn:E; [|reflexivity]. exfalso.
      apply Hv. exists x. split; [assumption | now apply has_username_true].
Qed.

(* ================================================================ *)
(** ** List lemmas for the table *)

Lemma offset_limit_in_range s k m :
  0 <= k <= bigint_max -> 0 <= m <= bigint_max ->
  offset_limit s k m
  = inr (firstn (Z.to_nat m) (skipn (Z.to_nat k) (rows s))).
Proof.
  intros Hk Hm. unfold offset_limit.
  replace (k <? 0) with false by (symmetry; apply Z.ltb_ge; lia).
  replace (m <? 0) with false by (symmetry; apply Z.ltb_ge; lia).
  replace (bigint_max <? k) with false by (symmetry; apply Z.ltb_ge; lia).
  replace (bigint_max <? m) with false by (symmetry; apply Z.ltb_ge; lia).
  reflexivity.
Qed.

Lemma find_app_skip {A} (p : A -> bool) l l' :
  (forall x, In x l -> p x = false) -> find p (l ++ l') = find p l'.
Proof.
  induction l as [|a l IH]; simpl; intros H; [reflexivity|].
  rewrite (H a (or_introl eq_refl)). apply IH. intros; apply H; now right.
Qed.

Lemma filter_keep_all {A} (p : A -> bool) l :
  (forall x, In x l -> p x = true) -> filter p l = l.
Proof.
  induction l as [|a l IH]; simpl; intros H; [reflexivity|].
  rewrite (H a (or_introl eq_refl)). f_equal. apply IH.
  intros; apply H; now right.
Qed.

(** With unique ids, filtering an id out removes one row and keeps the
    others in place. *)
Lemma filter_out_id l u i :
  NoDup (map User.id l) -> In u l -> User.id u = Some i ->
  exists l1 l2 : list User.t,
    l = (l1 ++ u :: l2)%list
    /\ filter (fun r => negb (has_id i r)) l = (l1 ++ l2)%list.
Proof.
  intros Hnd Hin Hid. apply in_split in Hin as (l1 & l2 & ->).
  exists l1, l2. split; [reflexivity|].
  rewrite map_app in Hnd. simpl in Hnd.
  apply NoDup_remove_2 in Hnd. rewrite in_app_iff in Hnd.
  assert (Hother : forall x, In x l1 \/ In x l2 ->
                             negb (has_id i x) = true).
  { intros x Hx. destruct (has_id i x) eqn:E; [|reflexivity].
    apply has_id_true in E. exfalso. apply Hnd.
    rewrite Hid, <- E. destruct Hx; [left|right]; now apply in_map. }
  rewrite filter_app. simpl.
  replace (has_id i u) with true
    by (symmetry; now apply has_id_true).
  simpl. rewrite !filter_keep_all; auto.
Qed.

Lemma validate_all_skipn n us rs :
  validate_all us = Some rs ->
  validate_all (skipn n us) = Some (skipn n rs).
Proof.
  revert us rs. induction n as [|n IH]; intros us rs H; [exact H|].
  destruct us as [|u us]; simpl in *.
  - now inversion H.
  - destruct (UserResponse_model_validate u) as [r|]; [|discriminate].
    destruct (validate_all us) as [rs'|] eqn:E; [|discriminate].
    inversion H; subst. simpl. now apply IH.
Qed.

Lemma validate_all_firstn n us rs :
  validate_all us = Some rs ->
  validate_all (firstn n us) = Some (firstn n rs).
Proof.
  revert us rs. induction n as [|n IH]; intros us rs H; [reflexivity|].
  destruct us as [|u us]; simpl in *.
  - now inversion H.
  - destruct (UserResponse_model_validate u) as [r|]; [|discriminate].
    destruct (validate_all us) as [rs'|] eqn:E; [|discriminate].
    inversion H; subst. simpl. now rewrite (IH us rs' E).
Qed.

(** A reply 201 from [post_users] means one row was appended, and the
    reply is the view of that row. *)
Lemma post_users_201 s e v st r s' :
  post_users s e v = (Return st r, s') ->
  exists user e' v',
    UserCreate_model_validate e v = Some user
    /\ UserBase_fields (UserCreate.email user) (UserCreate.username user)
       = Some (e', v')
    /\ first_by_email s (UserCreate.email user) = None
    /\ first_by_username s (UserCreate.username user) = None
    /\ no_clash s e' v'
    /\ s' = {| rows := rows s ++ [new_row s e' v'];
               next_id := next_id s + 1; ticks := S (S (ticks s)) |}
    /\ UserResponse_model_validate (new_row s e' v') = Some r
    /\ st = 201.
Proof.
  unfold post_users.
  destruct (UserCreate_model_validate e v) as [user|]; [|discriminate].
  intros H. apply create_user_shape in H.
  destruct H as [(_ & _ & _ & []) | (e' & v' & Hf & He & Hv & Hnc & -> & Hr)].
  exists user, e', v'.
  destruct (UserResponse_model_validate (new_row s e' v')) as [r'|];
    [|discriminate].
  inversion Hr; subst. auto 10.
Qed.

Lemma create_all_rows ps : forall s rs s',
  create_all s ps = Some (rs, s') ->
  exists new, rows s' = (rows s ++ new)%list
              /\ validate_all new = Some rs
              /\ List.length rs = List.length ps.
Proof.
  induction ps as [|[e v] ps IH]; simpl; intros s rs s' H.
  - inversion H; subst. exists []. now rewrite app_nil_r.
  - destruct (post_users s e v) as [[st r|] s1] eqn:Hp; [|discriminate].
    destruct (st =? 201); [|discriminate].
    destruct (create_all s1 ps) as [[rs' s2]|] eqn:Hc; [|discriminate].
    inversion H; subst.
    apply post_users_201 in Hp
      as (user & e' & v' & _ & _ & _ & _ & _ & -> & Hr & _).
    apply IH in Hc as (new & Hrows & Hval & Hlen).
    exists (new_row s e' v' :: new). cbn [rows] in Hrows.
    rewrite Hrows, <- app_assoc. repeat split.
    + simpl. now rewrite Hr, Hval.
    + simpl. now rewrite Hlen.
Qed.

(* ================================================================ *)
(** ** Properties of the validator and of the handlers *)

(** C2. The username validator refuses a candidate exactly when one of its
    characters is outside the letters, digits, hyphen and underscore, or
    when none of its characters is a letter or a digit; an accepted
    candidate comes back in lower case. A username made of underscores
    only, such as ["___"], has every character in the allowed set and is
    refused all the same: [''.isalnum()] is [False]. *)
Theorem validate_username_refuses_punctuation_only :
  (forall v,
      UserBase.validate_username v = None <->
      PyStr.all_chars UserBase.char_allowed v = false
      \/ PyStr.any_char PyStr.char_isalnum v = false)
  /\ (forall v w, UserBase.validate_username v = Some w -> w = PyStr.lower v)
  /\ PyStr.all_chars UserBase.char_allowed (py "___") = true
  /\ (3 <=? PyStr.len (py "___")) && (PyStr.len (py "___") <=? 50) = true
  /\ UserBase.validate_username (py "___") = None.
Proof.
  split; [|split; [|repeat split; vm_compute; reflexivity]].
  - intros v. rewrite validate_username_eq.
    destruct (PyStr.all_chars _ v), (PyStr.any_char _ v); simpl;
      (split; [intros H; try discriminate H; auto
              | intros [H|H]; try discriminate H; reflexivity]).
  - intros v w. rewrite validate_username_eq.
    destruct (_ && _); [now intros [= <-] | discriminate].
Qed.

(** C3, as amended. After a creation with username [v1] is answered 201,
    the stored username is the lower-case form of [v1], and a creation
    whose payload passes schema validation, whose username has that same
    lower-case form and whose email is not registered is refused with 400
    "Username already taken", the state staying as it was. *)
Theorem create_user_username_case_conflict s e1 v1 r s1 e2 v2 user2 :
  post_users s e1 v1 = (Return 201 r, s1) ->
  UserCreate_model_validate e2 v2 = Some user2 ->
  PyStr.lower v2 = PyStr.lower v1 ->
  ~ email_registered s1 (UserCreate.email user2) ->
  UserResponse.username r = PyStr.lower v1
  /\ username_taken s1 (PyStr.lower v1)
  /\ post_users s1 e2 v2
     = (Raise (http 400 "Username already taken"), s1).
Proof.
  intros H1 Hu2 Hcase Hfresh.
  apply post_users_201 in H1
    as (user & e' & v' & Hu & Hf & _ & _ & _ & Hs1 & Hr & _).
  apply UserCreate_username_lower in Hu as [Hname Hlow].
  apply UserBase_fields_Some in Hf as [_ Hv'].
  apply (username_field_fixed _ _ Hlow) in Hv' as [Hstored Hagain].
  rewrite Hname in Hstored.
  assert (Htaken : username_taken s1 (PyStr.lower v1)).
  { exists (new_row s e' v'). rewrite Hs1. cbn [rows].
    split; [apply in_or_app; right; now left | exact Hstored]. }
  split; [|split; [exact Htaken|]].
  - apply UserResponse_of_row in Hr as (i & _ & Hf & _).
    apply UserBase_fields_Some in Hf as [_ Hf].
    cbn [new_row User.username] in Hf.
    rewrite Hf in Hagain. congruence.
  - apply UserCreate_username_lower in Hu2 as Hname2.
    destruct Hname2 as [Hname2 _].
    unfold post_users. rewrite Hu2. unfold create_user.
    apply first_by_email_None in Hfresh. rewrite Hfresh.
    rewrite Hname2, Hcase.
    apply first_by_username_Some in Htaken as [u ->]. reflexivity.
Qed.

(** C4, as amended. After [N] creations in sequence from the empty table,
    each answered 201, listing with [skip = k] and [limit = m], both
    non-negative and within the database's [bigint], is answered 200 with
    the creation replies at positions [k, k+m), in the order of creation;
    with [k >= N] the answer is 200 with the empty list. *)
Theorem get_users_pagination ps rs s k m :
  create_all init ps = Some (rs, s) ->
  0 <= k <= bigint_max -> 0 <= m <= bigint_max ->
  List.length rs = List.length ps
  /\ get_users s k m
     = Return 200 (firstn (Z.to_nat m) (skipn (Z.to_nat k) rs))
  /\ (forall i, (i < Z.to_nat m)%nat ->
        nth_error (firstn (Z.to_nat m) (skipn (Z.to_nat k) rs)) i
        = nth_error rs (Z.to_nat k + i))
  /\ (Z.of_nat (List.length ps) <= k -> get_users s k m = Return 200 []).
Proof.
  intros H Hk Hm.
  apply create_all_rows in H as (new & Hrows & Hval & Hlen).
  simpl in Hrows.
  assert (Hget : get_users s k m
                 = Return 200 (firstn (Z.to_nat m) (skipn (Z.to_nat k) rs))).
  { unfold get_users. rewrite (offset_limit_in_range s k m Hk Hm).
    rewrite Hrows.
    now rewrite (validate_all_firstn _ _ _
                   (validate_all_skipn (Z.to_nat k) _ _ Hval)). }
  repeat split; auto.
  - intros i Hi. rewrite nth_error_firstn.
    replace (i <? Z.to_nat m)%nat with true
      by (symmetry; apply Nat.ltb_lt; lia).
    apply nth_error_skipn.
  - intros Hbig. rewrite Hget, skipn_all2 by lia. now rewrite firstn_nil.
Qed.

(** C5. When a creation is answered 201 with view [r], fetching
    [r]'s id in the resulting state is answered 200 with the same view
    [r]: id, email, username, created_at and updated_at all agree. *)
Theorem create_user_then_get_user s user st r s' :
  create_user s user = (Return st r, s') ->
  st = 201 /\ get_user s' (UserResponse.id r) = Return 200 r.
Proof.
  intros H. apply create_user_shape in H.
  destruct H as [(_ & _ & _ & []) | (e & v & _ & _ & _ & Hnc & -> & Hr)].
  destruct (UserResponse_model_validate (new_row s e v)) as [r'|] eqn:Hv;
    [|discriminate].
  inversion Hr; subst. split; [reflexivity|].
  pose proof (UserResponse_of_row _ _ Hv) as (i & Hi & _ & Hid & _).
  simpl in Hi. assert (Hi' : i = next_id s) by congruence.
  unfold get_user, session_get. cbn [rows]. rewrite Hid, Hi'.
  rewrite find_app_skip.
  - simpl. unfold has_id at 1. simpl. rewrite Z.eqb_refl. now rewrite Hv.
  - intros x Hx. destruct (has_id (next_id s) x) eqn:E; [|reflexivity].
    apply has_id_true in E. now apply Hnc in Hx.
Qed.

(** C6. In a reachable state, when deleting id [i] is answered with
    success, the answer is 200 with the confirmation message, exactly one
    row (the one with id [i]) has left the table and the others keep their
    places, and afterwards both fetching [i] and deleting [i] again are
    answered 404 "User not found". *)
Theorem delete_user_then_not_found s i st msg s' :
  reachable s ->
  delete_user s i = (Return st msg, s') ->
  st = 200 /\ msg = "User deleted successfully"
  /\ (exists (l1 l2 : list User.t) u,
        rows s = (l1 ++ u :: l2)%list /\ User.id u = Some i
        /\ rows s' = (l1 ++ l2)%list)
  /\ next_id s' = next_id s
  /\ get_user s' i = Raise (http 404 "User not found")
  /\ delete_user s' i = (Raise (http 404 "User not found"), s').
Proof.
  intros Hreach H. apply reachable_Inv in Hreach as [Hids _ _ _ _].
  apply delete_user_shape in H.
  destruct H as [(_ & _ & [=]) | (u & _ & Hin & Hid & -> & Hrep)].
  inversion Hrep; subst.
  assert (Hgone : session_get
                    {| rows := filter (fun r => negb (has_id i r)) (rows s);
                       next_id := next_id s; ticks := ticks s |} i = None).
  { unfold session_get. apply find_None. cbn [rows]. intros x Hx.
    apply filter_In in Hx as [_ Hx]. now apply negb_true_iff in Hx. }
  repeat split; auto.
  - destruct (filter_out_id _ _ _ Hids Hin Hid) as (l1 & l2 & Hl & Hf).
    exists l1, l2, u. auto.
  - unfold get_user. now rewrite Hgone.
  - unfold delete_user. now rewrite Hgone.
Qed.

(** No request rewrites a row: the rows after a request are rows from
    before, or the row just inserted. *)
Lemma step_rows s req u :
  In u (rows (step s req)) ->
  In u (rows s)
  \/ exists e0 v0 e v,
       UserBase_fields e0 v0 = Some (e, v) /\ u = new_row s e v.
Proof.
  destruct req; simpl; auto.
  - destruct (post_users s email username) as [rep s'] eqn:Hp. simpl.
    unfold post_users in Hp.
    destruct (UserCreate_model_validate email username) as [user|].
    + apply create_user_shape in Hp.
      destruct Hp as [(-> & _) | (e & v & Hf & _ & _ & _ & -> & _)]; auto.
      cbn [rows]. rewrite in_app_iff. intros [H|[<-|[]]]; eauto 8.
    + inversion Hp; subst; auto.
  - destruct (delete_user s user_id) as [rep s'] eqn:Hd. simpl.
    apply delete_user_shape in Hd.
    destruct Hd as [(_ & -> & _) | (x & _ & _ & _ & -> & _)]; auto.
    cbn [rows]. intros H. apply filter_In in H as [H _]. auto.
Qed.

Lemma NoDup_map_inj {A B} (f : A -> B) l x y :
  NoDup (map f l) -> In x l -> In y l -> f x = f y -> x = y.
Proof.
  induction l as [|a l IH]; simpl; intros Hnd Hx Hy Hf; [contradiction|].
  inversion Hnd as [|? ? Hna Hnd']; subst.
  destruct Hx as [->|Hx], Hy as [->|Hy]; auto.
  - exfalso. apply Hna. rewrite Hf. now apply in_map.
  - exfalso. apply Hna. rewrite <- Hf. now apply in_map.
Qed.

(** C7, as amended. In a reachable state, the [created_at] and
    [updated_at] of every row are two successive readings of the clock,
    [updated_at] being read right after [created_at]; no request changes
    a stored row, so both stay as set at creation. The two fields are
    equal only when those two readings coincide. *)
Theorem timestamps_set_once_at_creation s :
  reachable s ->
  (forall u, In u (rows s) ->
     exists n, User.created_at u = utcnow n
               /\ User.updated_at u = utcnow (S n))
  /\ (forall req u u',
        In u (rows s) -> In u' (rows (step s req)) ->
        User.id u' = User.id u -> u' = u)
  /\ ((forall n, utcnow (S n) = utcnow n) ->
      forall u, In u (rows s) -> User.updated_at u = User.created_at u).
Proof.
  intros Hreach. apply reachable_Inv in Hreach as [Hids _ _ Hrows _].
  rewrite Forall_forall in Hrows.
  assert (Hstamp : forall u, In u (rows s) ->
            exists n, User.created_at u = utcnow n
                      /\ User.updated_at u = utcnow (S n)).
  { intros u Hu. destruct (Hrows u Hu) as (_ & _ & n & _ & Hc & Hup).
    eauto. }
  split; [exact Hstamp | split].
  - intros req u u' Hu Hu' Hid.
    apply step_rows in Hu' as [Hu' | (e0 & v0 & e & v & _ & ->)].
    + eapply NoDup_map_inj; eauto.
    + destruct (Hrows u Hu) as ((i & Hi & Hlt) & _).
      simpl in Hid. rewrite Hi in Hid. inversion Hid. lia.
  - intros Hconst u Hu. destruct (Hstamp u Hu) as (n & -> & ->).
    apply Hconst.
Qed.

(** C8. In every reachable state the rows have pairwise distinct emails,
    pairwise distinct usernames and pairwise distinct ids; every stored
    username is in lower case, has 3 to 50 characters and only letters,
    digits, hyphens and underscores; and the rows after any request are
    rows from before, unchanged, or the one row just inserted under the
    next id of the sequence. *)
Theorem reachable_rows_unique_and_valid s :
  reachable s ->
  NoDup (map User.email (rows s))
  /\ NoDup (map User.username (rows s))
  /\ NoDup (map User.id (rows s))
  /\ (forall u, In u (rows s) ->
        (exists i, User.id u = Some i)
        /\ PyStr.lower (User.username u) = User.username u
        /\ 3 <= PyStr.len (User.username u) <= 50
        /\ PyStr.all_chars UserBase.char_allowed (User.username u) = true)
  /\ (forall req u',
        In u' (rows (step s req)) ->
        In u' (rows s) \/ User.id u' = Some (next_id s)).
Proof.
  intros Hreach. apply reachable_Inv in Hreach as [Hids Hem Hun Hrows _].
  rewrite Forall_forall in Hrows.
  repeat split; auto.
  - destruct (Hrows u H) as ((i & Hi & _) & _). eauto.
  - destruct (Hrows u H) as (_ & Hv & _).
    apply username_field_Some in Hv as [Hv _]. now rewrite Hv at 2.
  - destruct (Hrows u H) as (_ & Hv & _).
    apply username_field_Some in Hv. lia.
  - destruct (Hrows u H) as (_ & Hv & _).
    apply username_field_Some in Hv. lia.
  - destruct (Hrows u H) as (_ & Hv & _).
    now apply username_field_Some in Hv.
  - intros req u' Hu'.
    apply step_rows in Hu' as [Hu' | (e0 & v0 & e & v & _ & ->)]; auto.
Qed.

(** The address normaliser leaves a normalised address alone. *)
Hypothesis EmailStr_validate_idem :
  forall e e', EmailStr_validate e = Some e' ->
               EmailStr_validate e' = Some e'.

(** A validated payload whose username passes the field validation once
    more passes the whole inherited validation unchanged. *)
Lemma UserCreate_fixed e v user :
  UserCreate_model_validate e v = Some user ->
  UserBase.username_field (UserCreate.username user) <> None ->
  UserBase_fields (UserCreate.email user) (UserCreate.username user)
  = Some (UserCreate.email user, UserCreate.username user).
Proof using EmailStr_validate_idem.
  intros H Hre. pose proof (UserCreate_username_lower _ _ _ H) as [_ Hlow].
  apply UserCreate_validated in H as [He _].
  apply UserBase_fields_Some. split.
  - eapply EmailStr_validate_idem; eauto.
  - destruct (UserBase.username_field (UserCreate.username user))
      as [w|] eqn:Hw; [|congruence].
    now apply (username_field_fixed _ _ Hlow) in Hw as [-> _].
Qed.

(** When a validated payload is inserted, it is inserted as it stands. *)
Lemma UserCreate_inserted_fixed e v user e' v' :
  UserCreate_model_validate e v = Some user ->
  UserBase_fields (UserCreate.email user) (UserCreate.username user)
  = Some (e', v') ->
  e' = UserCreate.email user /\ v' = UserCreate.username user
  /\ UserBase_fields (UserCreate.email user) (UserCreate.username user)
     = Some (UserCreate.email user, UserCreate.username user).
Proof using EmailStr_validate_idem.
  intros H Hf.
  assert (Hre : UserBase.username_field (UserCreate.username user) <> None).
  { apply UserBase_fields_Some in Hf as [_ Hf]. congruence. }
  pose proof (UserCreate_fixed _ _ _ H Hre) as Hfix.
  rewrite Hfix in Hf. inversion Hf; subst. auto.
Qed.

Lemma reachable_rows_validated s : reachable s -> rows_validated s.
Proof using EmailStr_validate_idem.
  induction 1 as [|s req Hreach IH]; [intros u []|].
  intros u Hu.
  pose proof (reachable_Inv _ (reachable_step _ req Hreach))
    as [_ _ _ Hrows _].
  rewrite Forall_forall in Hrows. destruct (Hrows u Hu) as (_ & Hname & _).
  apply UserBase_fields_Some. split; [|exact Hname].
  apply step_rows in Hu as [Hu|(e0 & v0 & e & v & Hf & ->)].
  - specialize (IH u Hu). now apply UserBase_fields_Some in IH.
  - apply UserBase_fields_Some in Hf as [He _].
    cbn [new_row User.email]. eapply EmailStr_validate_idem; eauto.
Qed.

Lemma validated_row_view u i :
  UserBase_fields (User.email u) (User.username u)
  = Some (User.email u, User.username u) ->
  User.id u = Some i ->
  UserResponse_model_validate u
  = Some (UserResponse.mk (User.email u) (User.username u) i
                          (User.created_at u) (User.updated_at u)).
Proof.
  intros Hf Hi. unfold UserResponse_model_validate. now rewrite Hf, Hi.
Qed.

(** C1. In a reachable state, for a payload that passed schema validation
    (its username is then the lower-case form of the one sent): if a row
    has exactly its email, the creation is refused with 400 "Email already
    registered", whatever the username; otherwise, if a row has its
    normalised username, it is refused with 400 "Username already taken";
    in both refusals the state stays as it was. A reply with a record is
    given only when both lookups are empty: it then has status 201, and the
    payload has been appended as one row under the next id, of which the
    reply is the view. With both lookups empty this happens exactly when the
    normalised username passes the field validation of [User] once more;
    otherwise the reply is 500 and no row is inserted. *)
Theorem create_user_checks_email_then_username s e v user :
  reachable s ->
  UserCreate_model_validate e v = Some user ->
  UserCreate.username user = PyStr.lower v
  /\ (email_registered s (UserCreate.email user) ->
      create_user s user
      = (Raise (http 400 "Email already registered"), s))
  /\ (~ email_registered s (UserCreate.email user) ->
      username_taken s (UserCreate.username user) ->
      create_user s user
      = (Raise (http 400 "Username already taken"), s))
  /\ (forall st r s',
        create_user s user = (Return st r, s') ->
        ~ email_registered s (UserCreate.email user)
        /\ ~ username_taken s (UserCreate.username user)
        /\ st = 201
        /\ r = UserResponse.mk (UserCreate.email user)
                               (UserCreate.username user) (next_id s)
                               (utcnow (ticks s)) (utcnow (S (ticks s)))
        /\ s' = {| rows := rows s
                           ++ [User.mk (UserCreate.email user)
                                       (UserCreate.username user)
                                       (Some (next_id s))
                                       (utcnow (ticks s))
                                       (utcnow (S (ticks s)))];
                   next_id := next_id s + 1;
                   ticks := S (S (ticks s)) |})
  /\ (~ email_registered s (UserCreate.email user) ->
      ~ username_taken s (UserCreate.username user) ->
      (UserBase.username_field (UserCreate.username user) <> None ->
       exists r s', create_user s user = (Return 201 r, s'))
      /\ (UserBase.username_field (UserCreate.username user) = None ->
          create_user s user
          = (Raise (http500 "Failed to create user: " ValidationError),
             {| rows := rows s; next_id := next_id s;
                ticks := S (S (ticks s)) |}))).
Proof using EmailStr_validate_idem.
  intros Hreach Hval. split; [|split; [|split; [|split]]].
  - now apply UserCreate_username_lower in Hval.
  - intros He. apply first_by_email_Some in He as [u Hu].
    unfold create_user. now rewrite Hu.
  - intros He Hv. apply first_by_email_None in He.
    apply first_by_username_Some in Hv as [u Hu].
    unfold create_user. now rewrite He, Hu.
  - intros st r s' Hc. apply create_user_shape in Hc.
    destruct Hc as [(_ & _ & _ & []) | (e' & v' & Hf & He & Hv & _ & -> & Hr)].
    destruct (UserCreate_inserted_fixed _ _ _ _ _ Hval Hf) as (-> & -> & Hfix).
    rewrite (validated_row_view
               (new_row s (UserCreate.email user) (UserCreate.username user))
               (next_id s) Hfix eq_refl) in Hr.
    inversion Hr; subst.
    repeat split; auto.
    + now apply first_by_email_None.
    + now apply first_by_username_None.
  - intros He Hv. split.
    + intros Hre. do 2 eexists. apply create_user_fresh; auto.
      * now apply reachable_Inv.
      * eapply UserCreate_fixed; eauto.
    + intros Hnone. unfold create_user.
      apply first_by_email_None in He. rewrite He.
      apply first_by_username_None in Hv. rewrite Hv.
      unfold User_model_validate, UserBase_fields. rewrite Hnone.
      now destruct (EmailStr_validate (UserCreate.email user)).
Qed.

Lemma create_user_400_state s user d s' :
  create_user s user
  = (Raise {| status_code := 400; detail := d |}, s') ->
  s' = s.
Proof.
  unfold create_user.
  destruct (first_by_email s _); [now intros [= _ <-]|].
  destruct (first_by_username s _); [now intros [= _ <-]|].
  destruct (User_model_validate s user) as [[db_user|] s1];
    [|discriminate].
  destruct (add_commit_refresh s1 db_user) as [[exc|u] s2];
    [discriminate|].
  destruct (UserResponse_model_validate u); discriminate.
Qed.


(** C9. A creation refused with status 400 leaves the state exactly as it
    was: nothing is inserted, nothing is modified, and the handler does
    not try again. So when a creation is answered 201, a second creation
    sending the same email, with any valid username, is refused with 400
    "Email already registered" and the state after it is the state before
    it. *)
Theorem create_user_conflict_changes_nothing s e v1 v2 r s1 :
  post_users s e v1 = (Return 201 r, s1) ->
  UserBase.username_field v2 <> None ->
  post_users s1 e v2 = (Raise (http 400 "Email already registered"), s1)
  /\ (forall s0 user d s0',
        create_user s0 user
        = (Raise {| status_code := 400; detail := d |}, s0') ->
        s0' = s0).
Proof using EmailStr_validate_idem.
  intros H1 Hv2. split; [|intros; eapply create_user_400_state; eauto].
  apply post_users_201 in H1
    as (user & e' & v' & Hu & Hf & _ & _ & _ & -> & _).
  apply UserCreate_validated in Hu as [He _].
  apply UserBase_fields_Some in Hf as [He' _].
  rewrite (EmailStr_validate_idem _ _ He) in He'. inversion He'; subst e'.
  destruct (UserBase.username_field v2) as [w|] eqn:Hw; [|congruence].
  unfold post_users, UserCreate_model_validate, UserBase_fields.
  rewrite He, Hw. unfold create_user. cbn [UserCreate.email].
  match goal with
  | |- context [first_by_email ?st ?em] =>
      destruct (first_by_email_Some st em) as [u ->]; [|reflexivity]
  end.
  exists (new_row s (UserCreate.email user) v'). cbn [rows].
  split; [apply in_or_app; right; now left | reflexivity].
Qed.


(* ================================================================ *)
(** ** Further properties of the validator *)

Lemma all_chars_forbidden v :
  PyStr.all_chars UserBase.char_allowed v = negb (has_forbidden_char v).
Proof.
  unfold has_forbidden_char.
  induction v as [|c v IH]; simpl; [reflexivity|].
  rewrite IH. now destruct (UserBase.char_allowed c).
Qed.

(** X1. An accepted username comes back in lower case, and is left
    unchanged by a further [str.lower]; validating it once more either
    returns it unchanged or refuses it. Refusal does happen: three times
    [U+0130] is accepted as six characters, every second one a combining
    dot, which the validator then refuses. *)
Theorem validate_username_result_is_lower v w :
  UserBase.validate_username v = Some w ->
  w = PyStr.lower v
  /\ PyStr.lower w = w
  /\ (UserBase.validate_username w = Some w
      \/ UserBase.validate_username w = None)
  /\ UserBase.validate_username [304; 304; 304]%N
     = Some [105; 775; 105; 775; 105; 775]%N
  /\ UserBase.validate_username [105; 775; 105; 775; 105; 775]%N = None.
Proof.
  intros H. rewrite validate_username_eq in H.
  destruct (_ && _); [|discriminate]. inversion H; subst w.
  split; [reflexivity|]. split; [apply lower_idem|].
  split; [|split; vm_compute; reflexivity].
  rewrite (validate_username_eq (PyStr.lower v)), lower_idem.
  destruct (_ && _); auto.
Qed.

(** X3. A request body whose username has a forbidden character, or fewer
    than 3 or more than 50 characters, or whose email the address validator
    refuses, is answered 422 in every state, and the state stays as it
    was: nothing is looked up or stored. *)
Theorem post_users_invalid_payload s e v :
  has_forbidden_char v = true \/ PyStr.len v < 3 \/ 50 < PyStr.len v
  \/ EmailStr_validate e = None ->
  UserCreate_model_validate e v = None
  /\ post_users s e v
     = (Raise {| status_code := 422; detail := FieldErrors |}, s).
Proof.
  intros H.
  assert (Hnone : UserCreate_model_validate e v = None).
  { unfold UserCreate_model_validate, UserBase_fields.
    destruct H as [H|[H|[H|H]]].
    - replace (UserBase.username_field v) with (@None PyStr.t);
        [now destruct (EmailStr_validate e)|].
      unfold UserBase.username_field. rewrite validate_username_eq.
      rewrite all_chars_forbidden, H. simpl.
      now destruct (_ && _).
    - replace (UserBase.username_field v) with (@None PyStr.t);
        [now destruct (EmailStr_validate e)|].
      unfold UserBase.username_field.
      replace (3 <=? PyStr.len v) with false
        by (symmetry; apply Z.leb_gt; lia).
      reflexivity.
    - replace (UserBase.username_field v) with (@None PyStr.t);
        [now destruct (EmailStr_validate e)|].
      unfold UserBase.username_field.
      replace (PyStr.len v <=? 50) with false
        by (symmetry; apply Z.leb_gt; lia).
      now rewrite andb_false_r.
    - now rewrite H. }
  split; [exact Hnone|]. unfold post_users. now rewrite Hnone.
Qed.

(* ================================================================ *)
(** ** Further properties of the handlers *)

Lemma step_next_id s req : next_id s <= next_id (step s req).
Proof.
  destruct req; simpl; try lia.
  - destruct (post_users s email username) as [rep s'] eqn:Hp. simpl.
    unfold post_users in Hp.
    destruct (UserCreate_model_validate email username) as [user|].
    + apply create_user_shape in Hp.
      destruct Hp as [(_ & H & _) | (e & v & _ & _ & _ & _ & -> & _)];
        simpl; lia.
    + inversion Hp; subst; lia.
  - destruct (delete_user s user_id) as [rep s'] eqn:Hd. simpl.
    apply delete_user_shape in Hd.
    destruct Hd as [(_ & -> & _) | (x & _ & _ & _ & -> & _)]; simpl; lia.
Qed.

(** X4. In [N] creations in sequence, each answered 201, the ids returned
    are consecutive values of the sequence: the creation at position [i]
    (from 0) returns the id [next_id + i], so the ids are pairwise distinct
    and increase in the order of creation, and the sequence ends [N]
    higher. *)
Theorem create_all_consecutive_ids ps : forall s rs s',
  create_all s ps = Some (rs, s') ->
  next_id s' = next_id s + Z.of_nat (List.length ps)
  /\ forall i r, nth_error rs i = Some r ->
                 UserResponse.id r = next_id s + Z.of_nat i.
Proof.
  induction ps as [|[e v] ps IH]; simpl; intros s rs s' H.
  - inversion H; subst. split; [lia|]. intros [|i] r; discriminate.
  - destruct (post_users s e v) as [[st r0|] s1] eqn:Hp; [|discriminate].
    destruct (st =? 201); [|discriminate].
    destruct (create_all s1 ps) as [[rs' s2]|] eqn:Hc; [|discriminate].
    inversion H; subst.
    apply post_users_201 in Hp
      as (user & e' & v' & _ & _ & _ & _ & _ & -> & Hr & _).
    apply IH in Hc as [Hn Hids]. cbn [next_id] in Hn, Hids.
    split; [lia|]. intros [|i] r Hnth; simpl in Hnth.
    + inversion Hnth; subst r.
      apply UserResponse_of_row in Hr as (j & Hj & _ & Hid & _).
      simpl in Hj. rewrite Hid. inversion Hj. lia.
    + rewrite (Hids i r Hnth). lia.
Qed.

Lemma run_keeps_gone i : forall reqs s,
  i < next_id s ->
  (forall u, In u (rows s) -> User.id u <> Some i) ->
  session_get (run s reqs) i = None.
Proof.
  induction reqs as [|req reqs IH]; simpl; intros s Hlt Hno.
  - apply find_None. intros u Hu. destruct (has_id i u) eqn:E; [|reflexivity].
    apply has_id_true in E. now apply Hno in Hu.
  - apply IH.
    + pose proof (step_next_id s req). lia.
    + intros u Hu.
      apply step_rows in Hu as [Hu | (e0 & v0 & e & v & _ & ->)]; auto.
      simpl. intros [= Heq]. lia.
Qed.

(** X5. An id is never handed out twice: once deleting id [i] has been
    answered with success in a reachable state, then after any further
    requests whatsoever, fetching [i] and deleting [i] are both answered
    404 "User not found". *)
Theorem deleted_id_never_returns s i st msg s1 reqs :
  reachable s ->
  delete_user s i = (Return st msg, s1) ->
  get_user (run s1 reqs) i = Raise (http 404 "User not found")
  /\ delete_user (run s1 reqs) i
     = (Raise (http 404 "User not found"), run s1 reqs).
Proof.
  intros Hreach H. apply reachable_Inv in Hreach as [_ _ _ Hrows _].
  rewrite Forall_forall in Hrows.
  apply delete_user_shape in H.
  destruct H as [(_ & _ & [=]) | (u & _ & Hin & Hid & -> & _)].
  destruct (Hrows u Hin) as ((j & Hj & Hlt) & _).
  assert (j = i) by congruence. subst j.
  match goal with
  | |- context [run ?st reqs] =>
      assert (Hgone : session_get (run st reqs) i = None)
  end.
  { apply run_keeps_gone; cbn [rows next_id]; [lia|].
    intros x Hx Habs. apply filter_In in Hx as [_ Hx].
    apply has_id_true in Habs. rewrite Habs in Hx. discriminate. }
  unfold get_user, delete_user. rewrite Hgone. auto.
Qed.

Lemma view_of_valid_row u i :
  UserBase_fields (User.email u) (User.username u)
  = Some (User.email u, User.username u) ->
  User.id u = Some i ->
  exists r, UserResponse_model_validate u = Some r /\ is_view u r.
Proof.
  intros Hf Hi. eexists. split; [apply validated_row_view; eauto|].
  unfold is_view. simpl. auto.
Qed.

Lemma reachable_row_view s u :
  reachable s -> In u (rows s) ->
  exists r, UserResponse_model_validate u = Some r /\ is_view u r.
Proof using EmailStr_validate_idem.
  intros Hreach Hin.
  pose proof (reachable_rows_validated _ Hreach u Hin) as Hf.
  apply reachable_Inv in Hreach as [_ _ _ Hrows _].
  rewrite Forall_forall in Hrows.
  destruct (Hrows u Hin) as ((i & Hi & _) & _).
  eapply view_of_valid_row; eauto.
Qed.

Lemma validate_all_views l :
  (forall u, In u l ->
     exists r, UserResponse_model_validate u = Some r /\ is_view u r) ->
  exists rs, validate_all l = Some rs /\ Forall2 is_view l rs.
Proof.
  induction l as [|u l IH]; intros H.
  - exists []. split; [reflexivity | constructor].
  - destruct (H u (or_introl eq_refl)) as (r & Hr & Hv).
    destruct IH as (rs & Hrs & Hall); [intros; apply H; now right|].
    exists (r :: rs). simpl. rewrite Hr, Hrs. split; [reflexivity|].
    now constructor.
Qed.

Lemma validate_all_split l1 l2 :
  validate_all (l1 ++ l2)
  = match validate_all l1, validate_all l2 with
    | Some rs1, Some rs2 => Some (rs1 ++ rs2)%list
    | _, _ => None
    end.
Proof.
  induction l1 as [|u l1 IH]; simpl.
  - now destruct (validate_all l2).
  - destruct (UserResponse_model_validate u) as [r|]; [|reflexivity].
    rewrite IH.
    destruct (validate_all l1), (validate_all l2); reflexivity.
Qed.

Lemma In_slice {A} (x : A) n k l :
  In x (firstn n (skipn k l)) -> In x l.
Proof.
  intros H. rewrite <- (firstn_skipn k l). apply in_or_app. right.
  rewrite <- (firstn_skipn n (skipn k l)). apply in_or_app. now left.
Qed.

Lemma find_filter_agree {A} (p q : A -> bool) l :
  (forall x, In x l -> p x = true -> q x = true) ->
  find p (filter q l) = find p l.
Proof.
  induction l as [|a l IH]; simpl; intros H; [reflexivity|].
  destruct (p a) eqn:Hp.
  - rewrite (H a (or_introl eq_refl) Hp). simpl. now rewrite Hp.
  - destruct (q a); simpl; [rewrite Hp|]; apply IH;
      intros; apply H; auto.
Qed.

(** X6. In a reachable state, listing with [skip] and [limit] both
    non-negative and within the database's [bigint] never fails: it is
    answered 200 with the field-for-field views of the rows at positions
    [skip, skip+limit) of the table, in table order, so with at most
    [limit] entries. *)
Theorem get_users_lists_table_slice s k m :
  reachable s -> 0 <= k <= bigint_max -> 0 <= m <= bigint_max ->
  exists rs,
    get_users s k m = Return 200 rs
    /\ Forall2 is_view
         (firstn (Z.to_nat m) (skipn (Z.to_nat k) (rows s))) rs
    /\ Z.of_nat (List.length rs) <= m.
Proof using EmailStr_validate_idem.
  intros Hreach Hk Hm.
  destruct (validate_all_views
              (firstn (Z.to_nat m) (skipn (Z.to_nat k) (rows s))))
    as (rs & Hrs & Hall).
  { intros u Hu. apply In_slice in Hu. eapply reachable_row_view; eauto. }
  exists rs. repeat split; auto.
  - unfold get_users. rewrite (offset_limit_in_range s k m Hk Hm).
    now rewrite Hrs.
  - apply Forall2_length in Hall. rewrite <- Hall.
    pose proof (firstn_le_length (Z.to_nat m)
                  (skipn (Z.to_nat k) (rows s))). lia.
Qed.

(** X7. In a reachable state, fetching by id has exactly two outcomes: 200
    with the field-for-field view of the row that has this id, or, when no
    row has it, 404 "User not found". It never answers 500. *)
Theorem get_user_found_or_404 s i :
  reachable s ->
  (exists u r, In u (rows s) /\ User.id u = Some i /\ is_view u r
               /\ get_user s i = Return 200 r)
  \/ ((forall u, In u (rows s) -> User.id u <> Some i)
      /\ get_user s i = Raise (http 404 "User not found")).
Proof using EmailStr_validate_idem.
  intros Hreach. unfold get_user.
  destruct (session_get s i) as [u|] eqn:Hg.
  - left. apply find_some in Hg as [Hin Hid]. apply has_id_true in Hid.
    destruct (reachable_row_view s u Hreach Hin) as (r & Hr & Hv).
    exists u, r. rewrite Hr. auto.
  - right. split; [|reflexivity].
    intros u Hu Hid. apply has_id_true in Hid.
    unfold session_get in Hg. rewrite find_None in Hg.
    rewrite (Hg u Hu) in Hid. discriminate.
Qed.

(** X8. Deleting one user leaves every other user as it was: after a
    successful delete of id [i] in a reachable state, fetching any other id
    gives the answer it gave before, and so does fetching by any email other
    than the deleted user's. *)
Theorem delete_user_keeps_other_users s i st msg s' :
  reachable s ->
  delete_user s i = (Return st msg, s') ->
  (forall j, j <> i -> get_user s' j = get_user s j)
  /\ (forall u e, session_get s i = Some u -> User.email u <> e ->
                  get_user_by_email s' e = get_user_by_email s e).
Proof.
  intros Hreach H. apply reachable_Inv in Hreach as [Hids _ _ _ _].
  apply delete_user_shape in H.
  destruct H as [(_ & _ & [=]) | (u & Hg & Hin & Hid & -> & _)].
  split.
  - intros j Hj. unfold get_user, session_get. cbn [rows].
    rewrite find_filter_agree; [reflexivity|].
    intros x _ Hx. apply negb_true_iff.
    destruct (has_id i x) eqn:E; [|reflexivity].
    apply has_id_true in Hx. apply has_id_true in E. congruence.
  - intros u' e Hg' Hne. rewrite Hg in Hg'. inversion Hg'; subst u'.
    unfold get_user_by_email, first_by_email. cbn [rows].
    rewrite find_filter_agree; [reflexivity|].
    intros x Hx He. apply negb_true_iff.
    destruct (has_id i x) eqn:E; [|reflexivity].
    apply has_id_true in E. apply has_email_true in He.
    assert (x = u) by (eapply NoDup_map_inj; eauto; congruence).
    subst x. contradiction.
Qed.

(** X9. Deleting keeps the order of the listing: in a reachable state,
    after a successful delete of id [i], and for every limit [m] that
    covers the table and is within the database's [bigint], the full
    listing is the full listing from before with the one view of id [i]
    taken out and the others in their places. *)
Theorem get_users_after_delete s i st msg s' m :
  reachable s ->
  delete_user s i = (Return st msg, s') ->
  Z.of_nat (List.length (rows s)) <= m <= bigint_max ->
  exists (l1 l2 : list UserResponse.t) r,
    get_users s 0 m = Return 200 (l1 ++ r :: l2)%list
    /\ UserResponse.id r = i
    /\ get_users s' 0 m = Return 200 (l1 ++ l2)%list.
Proof using EmailStr_validate_idem.
  intros Hreach H Hm.
  pose proof (reachable_Inv _ Hreach) as [Hids _ _ _ _].
  apply delete_user_shape in H.
  destruct H as [(_ & _ & [=]) | (u & _ & Hin & Hid & -> & _)].
  destruct (filter_out_id _ _ _ Hids Hin Hid) as (r1 & r2 & Hl & Hf).
  destruct (validate_all_views (rows s)) as (rs & Hrs & _).
  { intros x Hx. eapply reachable_row_view; eauto. }
  rewrite Hl, validate_all_split in Hrs. simpl in Hrs.
  destruct (validate_all r1) as [v1|] eqn:H1; [|discriminate].
  destruct (UserResponse_model_validate u) as [r|] eqn:Hu; [|discriminate].
  destruct (validate_all r2) as [v2|] eqn:H2; [|discriminate].
  exists v1, v2, r.
  apply UserResponse_of_row in Hu as Hview.
  destruct Hview as (j & Hj & _ & Hrid & _).
  assert (Hlist : forall st0,
            rows st0 = rows s \/ rows st0 = (r1 ++ r2)%list ->
            get_users st0 0 m
            = match validate_all (rows st0) with
              | Some rs => Return 200 rs
              | None => Raise (http500 "Failed to fetch users: "
                                       ValidationError)
              end).
  { intros st0 Hst. unfold get_users.
    rewrite offset_limit_in_range by (unfold bigint_max in *; lia).
    simpl skipn. rewrite firstn_all2; [reflexivity|].
    destruct Hst as [->| ->]; [lia|].
    rewrite Hl, !length_app in Hm. simpl in Hm.
    rewrite length_app. lia. }
  repeat split.
  - rewrite (Hlist s (or_introl eq_refl)), Hl, validate_all_split. simpl.
    now rewrite H1, Hu, H2.
  - congruence.
  - rewrite Hlist by (right; exact Hf). cbn [rows].
    now rewrite Hf, validate_all_split, H1, H2.
Qed.

(** X10. A delete frees the email and the username: in a reachable state,
    when a validated payload has been created with view [r], deleting
    [r]'s id succeeds, and creating the same payload again then succeeds
    with the same email and username under the next id, not the old one. *)
Theorem create_delete_create_again s e v user r s1 :
  reachable s ->
  UserCreate_model_validate e v = Some user ->
  create_user s user = (Return 201 r, s1) ->
  exists s2 r' s3,
    delete_user s1 (UserResponse.id r)
    = (Return 200 "User deleted successfully", s2)
    /\ create_user s2 user = (Return 201 r', s3)
    /\ UserResponse.id r' = UserResponse.id r + 1
    /\ UserResponse.email r' = UserResponse.email r
    /\ UserResponse.username r' = UserResponse.username r.
Proof using EmailStr_validate_idem.
  intros Hreach Hu Hc.
  pose proof (reachable_Inv _ Hreach) as HI.
  pose proof (UserCreate_username_lower _ _ _ Hu) as [_ Hlow].
  pose proof (Inv_create _ _ _ _ HI Hlow Hc) as HI1.
  apply create_user_shape in Hc.
  destruct Hc as [(_ & _ & _ & []) | (e' & v' & Hf & He & Hv & Hnc & -> & Hr)].
  destruct (UserCreate_inserted_fixed _ _ _ _ _ Hu Hf) as (-> & -> & Hfix).
  clear Hf.
  set (row := new_row s (UserCreate.email user) (UserCreate.username user))
    in *.
  assert (Hview : UserResponse_model_validate row
                  = Some (UserResponse.mk (UserCreate.email user)
                            (UserCreate.username user) (next_id s)
                            (utcnow (ticks s)) (utcnow (S (ticks s)))))
    by (apply (validated_row_view row (next_id s)); [exact Hfix | reflexivity]).
  rewrite Hview in Hr. inversion Hr; subst r. clear Hr. cbn [UserResponse.id
    UserResponse.email UserResponse.username].
  set (s1 := {| rows := rows s ++ [row]; next_id := next_id s + 1;
                ticks := S (S (ticks s)) |}) in *.
  assert (Hold : forall x, In x (rows s) -> has_id (next_id s) x = false).
  { intros x Hx. destruct (has_id (next_id s) x) eqn:E; [|reflexivity].
    apply has_id_true in E. now apply Hnc in Hx. }
  assert (Hget : session_get s1 (next_id s) = Some row).
  { unfold session_get. cbn [rows s1]. rewrite find_app_skip by exact Hold.
    simpl. unfold has_id at 1. simpl. now rewrite Z.eqb_refl. }
  destruct (delete_user s1 (next_id s)) as [rep s2] eqn:Hd.
  pose proof (Inv_delete _ _ _ _ HI1 Hd) as HI2.
  apply delete_user_shape in Hd.
  destruct Hd as [(Hnone & _) | (u & _ & _ & _ & Hs2 & ->)]; [congruence|].
  assert (Hrows : rows s2 = rows s).
  { rewrite Hs2. cbn [rows s1]. rewrite filter_app. simpl.
    unfold has_id at 2. simpl. rewrite Z.eqb_refl. simpl.
    rewrite app_nil_r. apply filter_keep_all.
    intros x Hx. now rewrite (Hold x Hx). }
  assert (Hnext : next_id s2 = next_id s + 1) by (now rewrite Hs2).
  assert (He2 : ~ email_registered s2 (UserCreate.email user)).
  { unfold email_registered. rewrite Hrows. now apply first_by_email_None. }
  assert (Hv2 : ~ username_taken s2 (UserCreate.username user)).
  { unfold username_taken. rewrite Hrows. now apply first_by_username_None. }
  pose proof (create_user_fresh s2 user HI2 Hfix He2 Hv2) as Hc2.
  do 3 eexists. split; [reflexivity|]. split; [exact Hc2|].
  cbn [UserResponse.id UserResponse.email UserResponse.username].
  auto.
Qed.

(** X11. Round trip by email: in a reachable state, when a validated
    payload is created with view [r], fetching by the payload's email in the
    resulting state is answered 200 with the same view [r]. *)
Theorem create_user_then_get_user_by_email s e v user st r s' :
  reachable s ->
  UserCreate_model_validate e v = Some user ->
  create_user s user = (Return st r, s') ->
  UserResponse.email r = UserCreate.email user
  /\ get_user_by_email s' (UserCreate.email user) = Return 200 r.
Proof using EmailStr_validate_idem.
  intros Hreach Hu Hc.
  apply create_user_shape in Hc.
  destruct Hc as [(_ & _ & _ & []) | (e' & v' & Hf & He & _ & _ & -> & Hr)].
  destruct (UserCreate_inserted_fixed _ _ _ _ _ Hu Hf) as (-> & -> & Hfix).
  clear Hf.
  destruct (UserResponse_model_validate (new_row s _ _)) as [r'|] eqn:Hv;
    [|discriminate].
  inversion Hr; subst.
  pose proof (UserResponse_of_row _ _ Hv) as (i & _ & Hf & _).
  cbn [new_row User.email User.username] in Hf. rewrite Hfix in Hf.
  split; [congruence|].
  unfold get_user_by_email, first_by_email. cbn [rows].
  rewrite find_app_skip.
  - cbn [find]. unfold has_email at 1. cbn [new_row User.email].
    rewrite PyStr_eqb_refl. now rewrite Hv.
  - now apply find_None.
Qed.

(** *** Chronological order *)

Lemma StronglySorted_snoc {A} (R : A -> A -> Prop) l a :
  StronglySorted R l -> Forall (fun x => R x a) l ->
  StronglySorted R (l ++ [a]).
Proof.
  induction 1 as [|x l Hs IH Hx]; intros Ha; simpl.
  - constructor; constructor.
  - inversion Ha; subst. constructor; [now apply IH|].
    apply Forall_app. split; [assumption|]. now constructor.
Qed.

Lemma StronglySorted_filter {A} (R : A -> A -> Prop) (p : A -> bool) l :
  StronglySorted R l -> StronglySorted R (filter p l).
Proof.
  induction 1 as [|x l Hs IH Hx]; simpl; [constructor|].
  destruct (p x); [|assumption]. constructor; [assumption|].
  rewrite Forall_forall in *. intros y Hy. apply Hx.
  now apply filter_In in Hy.
Qed.

Lemma StronglySorted_weaken {A} (R R' : A -> A -> Prop) l :
  (forall x y, R x y -> R' x y) ->
  StronglySorted R l -> StronglySorted R' l.
Proof.
  intros HR. induction 1 as [|x l Hs IH Hx]; constructor; auto.
  eapply Forall_impl; [|exact Hx]. auto.
Qed.

(** The table after a request: as before, or with one row appended, or
    with one id filtered out. *)
Lemma step_rows_shape s req :
  rows (step s req) = rows s
  \/ (exists e v, rows (step s req) = (rows s ++ [new_row s e v])%list)
  \/ (exists i, rows (step s req)
                = filter (fun r => negb (has_id i r)) (rows s)).
Proof.
  destruct req; simpl; auto.
  - destruct (post_users s email username) as [rep s'] eqn:Hp. simpl.
    unfold post_users in Hp.
    destruct (UserCreate_model_validate email username) as [user|].
    + apply create_user_shape in Hp.
      destruct Hp as [(-> & _) | (e & v & _ & _ & _ & _ & -> & _)];
        [now left | right; left; now exists e, v].
    + inversion Hp; subst; auto.
  - destruct (delete_user s user_id) as [rep s'] eqn:Hd. simpl.
    apply delete_user_shape in Hd.
    destruct Hd as [(_ & -> & _) | (x & _ & _ & _ & -> & _)];
      [now left | right; right; now exists user_id].
Qed.

Lemma reachable_stamped_in_order s :
  reachable s -> StronglySorted stamped_before (rows s).
Proof.
  induction 1 as [|s req Hreach IH]; [constructor|].
  apply reachable_Inv in Hreach as [_ _ _ Hrows _].
  destruct (step_rows_shape s req) as [-> | [(e & v & ->) | (i & ->)]].
  - exact IH.
  - apply StronglySorted_snoc; [exact IH|].
    eapply Forall_impl; [|exact Hrows].
    intros u (_ & _ & n & Hn & Hc & Hu).
    exists n, (ticks s). simpl. auto.
  - now apply StronglySorted_filter.
Qed.

Lemma clock_monotone :
  (forall n, utcnow n <= utcnow (S n)) ->
  forall a b, (a <= b)%nat -> utcnow a <= utcnow b.
Proof.
  intros Hmono a b Hab. induction Hab as [|b Hab IH]; [lia|].
  specialize (Hmono b). lia.
Qed.

(** X12. With a clock that never goes back, time stamps follow the table
    order: in a reachable state every row has [created_at <= updated_at],
    and of two rows the one stored earlier has its [updated_at] no later
    than the [created_at] of the other. *)
Theorem rows_in_chronological_order s :
  (forall n, utcnow n <= utcnow (S n)) ->
  reachable s ->
  (forall u, In u (rows s) -> User.created_at u <= User.updated_at u)
  /\ StronglySorted
       (fun u1 u2 => User.updated_at u1 <= User.created_at u2) (rows s).
Proof.
  intros Hmono Hreach. split.
  - intros u Hu. apply reachable_Inv in Hreach as [_ _ _ Hrows _].
    rewrite Forall_forall in Hrows.
    destruct (Hrows u Hu) as (_ & _ & n & _ & -> & ->). apply Hmono.
  - eapply StronglySorted_weaken; [|now apply reachable_stamped_in_order].
    intros u1 u2 (n1 & n2 & Hlt & _ & -> & -> & _).
    apply clock_monotone; [assumption | lia].
Qed.

(** *** Pages and single fetches *)

Lemma firstn_add {A} (a b : nat) (l : list A) :
  firstn (a + b) l = (firstn a l ++ firstn b (skipn a l))%list.
Proof.
  revert l. induction a as [|a IH]; intros l; [reflexivity|].
  destruct l as [|x l]; simpl.
  - now rewrite firstn_nil.
  - now rewrite IH.
Qed.

Lemma skipn_add {A} (a b : nat) (l : list A) :
  skipn (a + b) l = skipn b (skipn a l).
Proof.
  revert l. induction a as [|a IH]; intros l; [reflexivity|].
  destruct l as [|x l]; simpl; [now rewrite skipn_nil | apply IH].
Qed.

(** X13. Consecutive pages tile the listing: in any state, when the page
    [skip = k, limit = m] and the next page [skip = k + m, limit = m']
    are both answered 200 and [m + m'] is within the database's [bigint],
    the page [skip = k, limit = m + m'] is answered 200 with the first page
    followed by the second. No row is skipped or repeated between pages. *)
Theorem get_users_pages_concatenate s k m m' rs1 rs2 :
  0 <= k -> 0 <= m -> 0 <= m' -> m + m' <= bigint_max ->
  get_users s k m = Return 200 rs1 ->
  get_users s (k + m) m' = Return 200 rs2 ->
  get_users s k (m + m') = Return 200 (rs1 ++ rs2)%list.
Proof.
  intros Hk Hm Hm' Hsum. unfold get_users.
  destruct (offset_limit s (k + m) m') as [exc|us2] eqn:H2; [discriminate|].
  assert (Hk2 : k + m <= bigint_max).
  { unfold offset_limit in H2.
    destruct (bigint_max <? k + m) eqn:E;
      [now rewrite !orb_true_r in H2; try discriminate|].
    now apply Z.ltb_ge in E. }
  rewrite offset_limit_in_range in H2 by lia. inversion H2; subst us2.
  rewrite (offset_limit_in_range s k m) by lia.
  rewrite (offset_limit_in_range s k (m + m')) by lia.
  rewrite !Z2Nat.inj_add by lia. rewrite firstn_add, skipn_add.
  rewrite validate_all_split.
  destruct (validate_all (firstn (Z.to_nat m) _)) as [a|]; [|discriminate].
  destruct (validate_all (firstn (Z.to_nat m') _)) as [b|]; [|discriminate].
  intros [= ->] [= ->]. reflexivity.
Qed.

Lemma validate_all_In us : forall rs r,
  validate_all us = Some rs -> In r rs ->
  exists u, In u us /\ UserResponse_model_validate u = Some r.
Proof.
  induction us as [|u us IH]; simpl; intros rs r H Hin.
  - inversion H; subst. contradiction.
  - destruct (UserResponse_model_validate u) as [r0|] eqn:Hu; [|discriminate].
    destruct (validate_all us) as [rs'|]; [|discriminate].
    inversion H; subst. destruct Hin as [<-|Hin]; [eauto|].
    destruct (IH rs' r eq_refl Hin) as (u' & Hu' & Hr). eauto.
Qed.

Lemma find_unique {A B} (f : A -> B) (p : A -> bool) l u :
  NoDup (map f l) -> In u l -> p u = true ->
  (forall x, p x = true -> f x = f u) ->
  find p l = Some u.
Proof.
  intros Hnd Hin Hp Hf. destruct (find p l) as [x|] eqn:E.
  - apply find_some in E as [Hx Hpx]. f_equal.
    eapply NoDup_map_inj; eauto.
  - rewrite find_None in E. rewrite (E u Hin) in Hp. discriminate.
Qed.

(** X14. The two single-record routes agree: in a reachable state, when
    fetching id [i] is answered 200 with view [r], fetching by [r]'s email
    is answered 200 with the same view [r]. *)
Theorem get_user_agrees_with_get_user_by_email s i r :
  reachable s ->
  get_user s i = Return 200 r ->
  UserResponse.id r = i
  /\ get_user_by_email s (UserResponse.email r) = Return 200 r.
Proof using EmailStr_validate_idem.
  intros Hreach. pose proof (reachable_Inv _ Hreach) as [_ Hem _ _ _].
  unfold get_user. destruct (session_get s i) as [u|] eqn:Hg; [|discriminate].
  apply find_some in Hg as [Hin Hid]. apply has_id_true in Hid.
  destruct (UserResponse_model_validate u) as [r'|] eqn:Hv; [|discriminate].
  intros [= ->].
  pose proof (UserResponse_of_row _ _ Hv) as (j & Hj & Hf & Hrid & _).
  rewrite (reachable_rows_validated _ Hreach u Hin) in Hf.
  split; [congruence|].
  assert (Hmail : UserResponse.email r = User.email u) by congruence.
  unfold get_user_by_email, first_by_email.
  rewrite (find_unique User.email (has_email (UserResponse.email r))
             (rows s) u Hem Hin).
  - now rewrite Hv.
  - now apply has_email_true.
  - intros x Hx. apply has_email_true in Hx. congruence.
Qed.

(** X15. Every entry of a listing can be fetched by its id: in a reachable
    state, when a listing is answered 200, each view [r] in it is what
    fetching [r]'s id returns, with status 200. *)
Theorem get_users_entries_fetchable s k m rs r :
  reachable s ->
  get_users s k m = Return 200 rs ->
  In r rs ->
  get_user s (UserResponse.id r) = Return 200 r.
Proof.
  intros Hreach Hlist Hin. apply reachable_Inv in Hreach as [Hids _ _ _ _].
  unfold get_users in Hlist.
  destruct (offset_limit s k m) as [exc|us] eqn:Ho; [discriminate|].
  destruct (validate_all us) as [rs'|] eqn:Hv; [|discriminate].
  inversion Hlist; subst rs'.
  destruct (validate_all_In _ _ _ Hv Hin) as (u & Hu & Hr).
  unfold offset_limit in Ho.
  destruct ((k <? 0) || (m <? 0) || (bigint_max <? k) || (bigint_max <? m));
    [discriminate|].
  inversion Ho; subst us. apply In_slice in Hu.
  pose proof (UserResponse_of_row _ _ Hr) as (j & Hj & _ & Hrid & _).
  unfold get_user, session_get.
  rewrite (find_unique User.id (has_id (UserResponse.id r)) (rows s) u
             Hids Hu).
  - now rewrite Hr.
  - apply has_id_true. congruence.
  - intros x Hx. apply has_id_true in Hx. congruence.
Qed.

Lemma reachable_run reqs : forall s, reachable s -> reachable (run s reqs).
Proof.
  induction reqs as [|req reqs IH]; simpl; intros s H; [exact H|].
  apply IH. now constructor.
Qed.

End Service.

(* ================================================================== *)
(** ** The handlers at work on concrete requests *)

Lemma split_at_sign_Some e : forall l d,
  split_at_sign e = Some (l, d) ->
  e = (l ++ 64%N :: d)%list /\ PyStr.any_char (N.eqb 64) l = false.
Proof.
  induction e as [|c e IH]; intros l d; cbn [split_at_sign]; [discriminate|].
  destruct (c =? 64)%N eqn:Hc.
  - intros [= <- <-]. apply N.eqb_eq in Hc. subst c. auto.
  - destruct (split_at_sign e) as [[l' d']|]; [|discriminate].
    intros [= <- <-]. destruct (IH l' d' eq_refl) as [-> Hl].
    split; [reflexivity|]. cbn [PyStr.any_char].
    now rewrite (N.eqb_sym 64 c), Hc.
Qed.

Lemma split_at_sign_app l d :
  PyStr.any_char (N.eqb 64) l = false ->
  split_at_sign (l ++ 64%N :: d)%list = Some (l, d).
Proof.
  induction l as [|c l IH]; cbn [PyStr.any_char]; intros H; [reflexivity|].
  apply orb_false_iff in H as [Hc Hl].
  cbn [app split_at_sign]. rewrite (N.eqb_sym c 64), Hc, (IH Hl). reflexivity.
Qed.

Lemma ascii_lower_idem c : ascii_lower (ascii_lower c) = ascii_lower c.
Proof.
  unfold ascii_lower.
  destruct ((65 <=? c) && (c <=? 90))%N eqn:H; [|now rewrite H].
  apply andb_prop in H as [H1 H2].
  apply N.leb_le in H1. apply N.leb_le in H2.
  replace (c + 32 <=? 90)%N with false by (symmetry; apply N.leb_gt; lia).
  now rewrite andb_false_r.
Qed.

Lemma ascii_lower_at c : (64 =? ascii_lower c)%N = (64 =? c)%N.
Proof.
  unfold ascii_lower.
  destruct ((65 <=? c) && (c <=? 90))%N eqn:H; [|reflexivity].
  apply andb_prop in H as [H1 H2].
  apply N.leb_le in H1. apply N.leb_le in H2.
  transitivity false; [|symmetry]; apply N.eqb_neq; lia.
Qed.

Lemma no_at_sign_lower d :
  PyStr.any_char (N.eqb 64) (map ascii_lower d)
  = PyStr.any_char (N.eqb 64) d.
Proof.
  induction d as [|c d IH]; cbn [map PyStr.any_char]; [reflexivity|].
  now rewrite ascii_lower_at, IH.
Qed.

Lemma at_sign_validate_idem e e' :
  at_sign_validate e = Some e' -> at_sign_validate e' = Some e'.
Proof.
  unfold at_sign_validate.
  destruct (split_at_sign e) as [[[|c l] [|d ds]]|] eqn:Hs; try discriminate.
  destruct (PyStr.any_char (N.eqb 64) (d :: ds)) eqn:Hd; [discriminate|].
  intros [= <-].
  apply split_at_sign_Some in Hs as [_ Hl].
  change (c :: l ++ 64%N :: ascii_lower d :: map ascii_lower ds)%list
    with ((c :: l) ++ 64%N :: map ascii_lower (d :: ds))%list.
  rewrite (split_at_sign_app (c :: l) _ Hl).
  rewrite <- (no_at_sign_lower (d :: ds)) in Hd.
  cbn [map] in *. rewrite Hd.
  do 4 f_equal; [apply ascii_lower_idem|].
  rewrite map_map. apply map_ext. intros x. apply ascii_lower_idem.
Qed.

Lemma post_alice :
  post_users ticking_clock at_sign_validate init (py "a@x.com") (py "Alice")
  = (Return 201 alice_view, s_alice).
Proof. vm_compute. reflexivity. Qed.

Lemma reachable_s_alice : reachable ticking_clock at_sign_validate s_alice.
Proof.
  assert (H : step ticking_clock at_sign_validate init
                   (POST_users (py "a@x.com") (py "Alice")) = s_alice)
    by (vm_compute; reflexivity).
  rewrite <- H. apply reachable_step, reachable_init.
Qed.



Lemma s_alice_no_email_b : ~ email_registered s_alice (py "b@x.com").
Proof. intros (u & [<-|[]] & Hu). vm_compute in Hu. discriminate Hu. Qed.

Lemma create_user_checks_email_then_username_witness :
  reachable ticking_clock at_sign_validate s_alice
  /\ UserCreate_model_validate at_sign_validate (py "a@x.com") (py "Zed")
     = Some (UserCreate.mk (py "a@x.com") (py "zed"))
  /\ create_user ticking_clock at_sign_validate s_alice
                 (UserCreate.mk (py "a@x.com") (py "zed"))
     = (Raise (http 400 "Email already registered"), s_alice)
  /\ UserCreate_model_validate at_sign_validate (py "b@x.com") (py "ALICE")
     = Some (UserCreate.mk (py "b@x.com") (py "alice"))
  /\ create_user ticking_clock at_sign_validate s_alice
                 (UserCreate.mk (py "b@x.com") (py "alice"))
     = (Raise (http 400 "Username already taken"), s_alice)
  /\ UserCreate_model_validate at_sign_validate (py "b@x.com") (py "Bob")
     = Some (UserCreate.mk (py "b@x.com") (py "bob"))
  /\ exists r s',
       create_user ticking_clock at_sign_validate s_alice
                   (UserCreate.mk (py "b@x.com") (py "bob"))
       = (Return 201 r, s').
Proof.
  assert (H1 : UserCreate_model_validate at_sign_validate
                 (py "a@x.com") (py "Zed")
               = Some (UserCreate.mk (py "a@x.com") (py "zed")))
    by (vm_compute; reflexivity).
  assert (H2 : UserCreate_model_validate at_sign_validate
                 (py "b@x.com") (py "ALICE")
               = Some (UserCreate.mk (py "b@x.com") (py "alice")))
    by (vm_compute; reflexivity).
  assert (H3 : UserCreate_model_validate at_sign_validate
                 (py "b@x.com") (py "Bob")
               = Some (UserCreate.mk (py "b@x.com") (py "bob")))
    by (vm_compute; reflexivity).
  pose proof (create_user_checks_email_then_username
                ticking_clock at_sign_validate at_sign_validate_idem
                s_alice _ _ _ reachable_s_alice H1) as (_ & Hemail & _).
  pose proof (create_user_checks_email_then_username
                ticking_clock at_sign_validate at_sign_validate_idem
                s_alice _ _ _ reachable_s_alice H2) as (_ & _ & Hname & _).
  pose proof (create_user_checks_email_then_username
                ticking_clock at_sign_validate at_sign_validate_idem
                s_alice _ _ _ reachable_s_alice H3)
    as (_ & _ & _ & _ & Hfresh).
  split; [exact reachable_s_alice|].
  split; [exact H1|]. split.
  { apply Hemail. exists alice_row. split; [now left | reflexivity]. }
  split; [exact H2|]. split.
  { apply Hname; [exact s_alice_no_email_b|].
    exists alice_row. split; [now left | reflexivity]. }
  split; [exact H3|].
  apply Hfresh.
  - exact s_alice_no_email_b.
  - intros (u & [<-|[]] & Hu). vm_compute in Hu. discriminate Hu.
  - vm_compute. discriminate.
Defined.

Lemma create_user_username_case_conflict_witness :
  post_users ticking_clock at_sign_validate init (py "a@x.com") (py "Alice")
  = (Return 201 alice_view, s_alice)
  /\ UserCreate_model_validate at_sign_validate (py "b@x.com") (py "ALICE")
     = Some (UserCreate.mk (py "b@x.com") (py "alice"))
  /\ PyStr.lower (py "ALICE") = PyStr.lower (py "Alice")
  /\ ~ email_registered s_alice (py "b@x.com")
  /\ post_users ticking_clock at_sign_validate s_alice
                (py "b@x.com") (py "ALICE")
     = (Raise (http 400 "Username already taken"), s_alice).
Proof.
  assert (H2 : UserCreate_model_validate at_sign_validate
                 (py "b@x.com") (py "ALICE")
               = Some (UserCreate.mk (py "b@x.com") (py "alice")))
    by (vm_compute; reflexivity).
  assert (Hl : PyStr.lower (py "ALICE") = PyStr.lower (py "Alice"))
    by (vm_compute; reflexivity).
  split; [exact post_alice | split; [exact H2 | split; [exact Hl|]]].
  split; [exact s_alice_no_email_b|].
  apply (create_user_username_case_conflict
           ticking_clock at_sign_validate init (py "a@x.com") (py "Alice")
           alice_view s_alice (py "b@x.com") (py "ALICE") _
           post_alice H2 Hl s_alice_no_email_b).
Defined.

(** [v2] differs from [v1] at most by letter case: the two have the same
    length and, position by position, characters with the same lower-case
    form. *)
Definition differs_only_by_case (v1 v2 : PyStr.t) : Prop :=
  Forall2 (fun a b => PyStr.char_lower a = PyStr.char_lower b) v1 v2.

(** C3, as stated, fails: after a user is created with the username
    alpha, alpha, small sigma, a creation with alpha, alpha, sigma in
    capitals, which differs from it only by letter case, is answered 201:
    a capital sigma at the end of a word lower-cases to the final small
    sigma, so the lookup finds nothing. *)
Lemma capital_sigma_username_does_not_conflict :
  ~ (forall s e1 v1 r s1 e2 v2 e2',
       post_users ticking_clock at_sign_validate s e1 v1
       = (Return 201 r, s1) ->
       differs_only_by_case (UserResponse.username r) v2 ->
       at_sign_validate e2 = Some e2' ->
       ~ email_registered s1 e2' ->
       post_users ticking_clock at_sign_validate s1 e2 v2
       = (Raise (http 400 "Username already taken"), s1)).
Proof.
  intros H.
  pose (v1 := [945; 945; 963]%N). pose (v2 := [913; 913; 931]%N).
  destruct (post_users ticking_clock at_sign_validate init (py "a@x.com") v1)
    as [rep s1] eqn:H1.
  vm_compute in H1. inversion H1 as [[Hrep Hs1]]. clear H1.
  match type of Hrep with
  | Return _ ?r0 = _ =>
      specialize (H init (py "a@x.com") v1 r0 s1 (py "b@x.com") v2
                    (py "b@x.com"))
  end.
  rewrite <- Hs1 in H.
  assert (Hcase : differs_only_by_case v1 v2)
    by (repeat constructor).
  assert (Hfresh : forall u, In u (rows s1) -> User.email u <> py "b@x.com").
  { rewrite <- Hs1. intros u [<-|[]]. vm_compute. discriminate. }
  assert (H2 : post_users ticking_clock at_sign_validate s1 (py "b@x.com") v2
               = (Raise (http 400 "Username already taken"), s1)).
  { rewrite <- Hs1. apply H.
    - vm_compute. reflexivity.
    - exact Hcase.
    - vm_compute. reflexivity.
    - intros (u & Hu & He). rewrite Hs1 in Hu. now apply Hfresh in Hu. }
  rewrite <- Hs1 in H2. vm_compute in H2. discriminate H2.
Qed.

Lemma get_users_pagination_witness :
  exists rs s,
    create_all ticking_clock at_sign_validate init three_payloads
    = Some (rs, s)
    /\ get_users at_sign_validate s 1 1
       = Return 200 [UserResponse.mk (py "b@x.com") (py "bob_1") 2
                                     (ticking_clock 2) (ticking_clock 3)]
    /\ get_users at_sign_validate s 3 10 = Return 200 [].
Proof.
  eexists. eexists.
  match goal with
  | |- ?A /\ _ => assert (H : A) by (vm_compute; reflexivity)
  end.
  split; [exact H|]. split.
  - apply (get_users_pagination ticking_clock at_sign_validate _ _ _ 1 1 H);
      unfold bigint_max; lia.
  - apply (get_users_pagination ticking_clock at_sign_validate _ _ _ 3 10 H);
      unfold bigint_max; simpl; lia.
Defined.

(** C4, as stated, fails: a limit of [2^63] is a non-negative integer, and
    the listing is answered 500, not 200, even on the empty table. *)
Lemma get_users_limit_out_of_bigint :
  ~ (forall ps rs s k m,
       create_all ticking_clock at_sign_validate init ps = Some (rs, s) ->
       0 <= k -> 0 <= m ->
       get_users at_sign_validate s k m
       = Return 200 (firstn (Z.to_nat m) (skipn (Z.to_nat k) rs))).
Proof.
  intros H. specialize (H [] [] init 0 (2 ^ 63) eq_refl).
  assert (Hget : get_users at_sign_validate init 0 (2 ^ 63)
                 = Raise (http500 "Failed to fetch users: " DataError))
    by reflexivity.
  rewrite Hget in H. discriminate H; lia.
Qed.

Lemma create_user_then_get_user_witness :
  create_user ticking_clock at_sign_validate init
              (UserCreate.mk (py "a@x.com") (py "alice"))
  = (Return 201 alice_view, s_alice)
  /\ get_user at_sign_validate s_alice 1 = Return 200 alice_view.
Proof.
  assert (H : create_user ticking_clock at_sign_validate init
                          (UserCreate.mk (py "a@x.com") (py "alice"))
              = (Return 201 alice_view, s_alice))
    by (vm_compute; reflexivity).
  split; [exact H|].
  apply (create_user_then_get_user ticking_clock at_sign_validate
           init _ 201 alice_view s_alice H).
Defined.

Lemma delete_user_then_not_found_witness :
  reachable ticking_clock at_sign_validate s_alice
  /\ delete_user s_alice 1
     = (Return 200 "User deleted successfully",
        {| rows := []; next_id := 2; ticks := 2 |})
  /\ get_user at_sign_validate {| rows := []; next_id := 2; ticks := 2 |} 1
     = Raise (http 404 "User not found")
  /\ delete_user {| rows := []; next_id := 2; ticks := 2 |} 1
     = (Raise (http 404 "User not found"),
        {| rows := []; next_id := 2; ticks := 2 |}).
Proof.
  assert (H : delete_user s_alice 1
              = (Return 200 "User deleted successfully",
                 {| rows := []; next_id := 2; ticks := 2 |}))
    by (vm_compute; reflexivity).
  split; [exact reachable_s_alice | split; [exact H|]].
  pose proof (delete_user_then_not_found
                ticking_clock at_sign_validate s_alice 1 200 _ _
                reachable_s_alice H) as (_ & _ & _ & _ & Hget & Hdel).
  split; [exact Hget | exact Hdel].
Defined.

(** C7, as stated, fails: with a clock that moves between two readings, the
    row created by the first request has [updated_at] one microsecond after
    [created_at]. *)
Lemma updated_at_differs_from_created_at :
  ~ (forall s, reachable ticking_clock at_sign_validate s ->
       forall u, In u (rows s) -> User.updated_at u = User.created_at u).
Proof.
  intros H.
  specialize (H s_alice reachable_s_alice alice_row (or_introl eq_refl)).
  vm_compute in H. discriminate H.
Qed.

Lemma timestamps_set_once_at_creation_witness :
  reachable ticking_clock at_sign_validate s_alice
  /\ exists n, User.created_at alice_row = ticking_clock n
               /\ User.updated_at alice_row = ticking_clock (S n).
Proof.
  split; [exact reachable_s_alice|].
  apply (proj1 (timestamps_set_once_at_creation
                  ticking_clock at_sign_validate s_alice reachable_s_alice)).
  left. reflexivity.
Defined.

Lemma reachable_rows_unique_and_valid_witness :
  reachable ticking_clock at_sign_validate s_alice
  /\ NoDup (map User.email (rows s_alice))
  /\ NoDup (map User.username (rows s_alice))
  /\ NoDup (map User.id (rows s_alice))
  /\ 3 <= PyStr.len (User.username alice_row) <= 50.
Proof.
  split; [exact reachable_s_alice|].
  pose proof (reachable_rows_unique_and_valid
                ticking_clock at_sign_validate s_alice reachable_s_alice)
    as (He & Hu & Hi & Hrows & _).
  repeat split; try assumption;
    apply (Hrows alice_row (or_introl eq_refl)).
Defined.

Lemma create_user_conflict_changes_nothing_witness :
  post_users ticking_clock at_sign_validate init (py "a@x.com") (py "Alice")
  = (Return 201 alice_view, s_alice)
  /\ UserBase.username_field (py "bob") <> None
  /\ post_users ticking_clock at_sign_validate s_alice
                (py "a@x.com") (py "bob")
     = (Raise (http 400 "Email already registered"), s_alice).
Proof.
  assert (Hbob : UserBase.username_field (py "bob") <> None)
    by (vm_compute; discriminate).
  split; [exact post_alice | split; [exact Hbob|]].
  apply (create_user_conflict_changes_nothing
           ticking_clock at_sign_validate at_sign_validate_idem
           init (py "a@x.com") (py "Alice") (py "bob") alice_view s_alice
           post_alice Hbob).
Defined.



(* ================================================================== *)
(** ** The further properties on concrete requests *)

(** The table after Alice and Bob have registered. *)
Definition s_alice_bob : State :=
  run ticking_clock at_sign_validate init
      [POST_users (py "a@x.com") (py "Alice");
       POST_users (py "b@x.com") (py "bob")].

Lemma reachable_s_alice_bob :
  reachable ticking_clock at_sign_validate s_alice_bob.
Proof. apply reachable_run, reachable_init. Qed.

Lemma ticking_clock_monotone n : ticking_clock n <= ticking_clock (S n).
Proof. unfold ticking_clock. lia. Qed.

Lemma delete_alice :
  delete_user s_alice_bob 1
  = (Return 200 "User deleted successfully",
     snd (delete_user s_alice_bob 1)).
Proof. vm_compute. reflexivity. Qed.

Lemma validate_username_result_is_lower_witness :
  UserBase.validate_username (py "Al-ice_1") = Some (py "al-ice_1")
  /\ PyStr.lower (py "al-ice_1") = py "al-ice_1"
  /\ (UserBase.validate_username (py "al-ice_1") = Some (py "al-ice_1")
      \/ UserBase.validate_username (py "al-ice_1") = None).
Proof.
  assert (H : UserBase.validate_username (py "Al-ice_1")
              = Some (py "al-ice_1"))
    by (vm_compute; reflexivity).
  split; [exact H|].
  pose proof (validate_username_result_is_lower _ _ H)
    as (_ & H1 & H2 & _).
  split; [exact H1 | exact H2].
Defined.

Lemma post_users_invalid_payload_witness :
  has_forbidden_char (py "bad name") = true
  /\ post_users ticking_clock at_sign_validate s_alice
                (py "b@x.com") (py "bad name")
     = (Raise {| status_code := 422; detail := FieldErrors |}, s_alice).
Proof.
  assert (H : has_forbidden_char (py "bad name") = true)
    by (vm_compute; reflexivity).
  split; [exact H|].
  apply (post_users_invalid_payload ticking_clock at_sign_validate
           s_alice (py "b@x.com") (py "bad name") (or_introl H)).
Defined.

Lemma create_all_consecutive_ids_witness :
  exists rs s,
    create_all ticking_clock at_sign_validate init three_payloads
    = Some (rs, s)
    /\ next_id s = 4
    /\ forall i r, nth_error rs i = Some r ->
                   UserResponse.id r = 1 + Z.of_nat i.
Proof.
  eexists. eexists.
  match goal with
  | |- ?A /\ _ => assert (H : A) by (vm_compute; reflexivity)
  end.
  split; [exact H|].
  apply (create_all_consecutive_ids ticking_clock at_sign_validate
           three_payloads init _ _ H).
Defined.

Lemma deleted_id_never_returns_witness :
  reachable ticking_clock at_sign_validate s_alice_bob
  /\ delete_user s_alice_bob 1
     = (Return 200 "User deleted successfully",
        snd (delete_user s_alice_bob 1))
  /\ get_user at_sign_validate
       (run ticking_clock at_sign_validate (snd (delete_user s_alice_bob 1))
            [POST_users (py "a@x.com") (py "Alice");
             POST_users (py "c@x.com") (py "carol")])
       1
     = Raise (http 404 "User not found").
Proof.
  split; [exact reachable_s_alice_bob | split; [exact delete_alice|]].
  apply (deleted_id_never_returns ticking_clock at_sign_validate
           s_alice_bob 1 200 _ _
           [POST_users (py "a@x.com") (py "Alice");
            POST_users (py "c@x.com") (py "carol")]
           reachable_s_alice_bob delete_alice).
Defined.

Lemma get_users_lists_table_slice_witness :
  reachable ticking_clock at_sign_validate s_alice_bob
  /\ exists rs,
       get_users at_sign_validate s_alice_bob 1 5 = Return 200 rs
       /\ Forall2 is_view (firstn 5 (skipn 1 (rows s_alice_bob))) rs
       /\ Z.of_nat (List.length rs) <= 5.
Proof.
  split; [exact reachable_s_alice_bob|].
  apply (get_users_lists_table_slice ticking_clock at_sign_validate
           at_sign_validate_idem s_alice_bob 1 5 reachable_s_alice_bob);
    unfold bigint_max; lia.
Defined.

Lemma get_user_found_or_404_witness :
  reachable ticking_clock at_sign_validate s_alice
  /\ ((exists u r, In u (rows s_alice) /\ User.id u = Some 7
                   /\ is_view u r
                   /\ get_user at_sign_validate s_alice 7 = Return 200 r)
      \/ ((forall u, In u (rows s_alice) -> User.id u <> Some 7)
          /\ get_user at_sign_validate s_alice 7
             = Raise (http 404 "User not found"))).
Proof.
  split; [exact reachable_s_alice|].
  apply (get_user_found_or_404 ticking_clock at_sign_validate
           at_sign_validate_idem s_alice 7 reachable_s_alice).
Defined.

Lemma delete_user_keeps_other_users_witness :
  reachable ticking_clock at_sign_validate s_alice_bob
  /\ get_user at_sign_validate (snd (delete_user s_alice_bob 1)) 2
     = get_user at_sign_validate s_alice_bob 2.
Proof.
  split; [exact reachable_s_alice_bob|].
  apply (proj1 (delete_user_keeps_other_users
                  ticking_clock at_sign_validate s_alice_bob 1 200 _ _
                  reachable_s_alice_bob delete_alice)).
  discriminate.
Defined.

Lemma get_users_after_delete_witness :
  reachable ticking_clock at_sign_validate s_alice_bob
  /\ exists (l1 l2 : list UserResponse.t) r,
       get_users at_sign_validate s_alice_bob 0 100
       = Return 200 (l1 ++ r :: l2)%list
       /\ UserResponse.id r = 1
       /\ get_users at_sign_validate (snd (delete_user s_alice_bob 1)) 0 100
          = Return 200 (l1 ++ l2)%list.
Proof.
  split; [exact reachable_s_alice_bob|].
  apply (get_users_after_delete ticking_clock at_sign_validate
           at_sign_validate_idem s_alice_bob 1 200 _ _ 100
           reachable_s_alice_bob delete_alice).
  assert (Hlen : List.length (rows s_alice_bob) = 2%nat)
    by (vm_compute; reflexivity).
  rewrite Hlen. unfold bigint_max. lia.
Defined.

Lemma create_delete_create_again_witness :
  reachable ticking_clock at_sign_validate init
  /\ exists s2 r' s3,
       delete_user s_alice (UserResponse.id alice_view)
       = (Return 200 "User deleted successfully", s2)
       /\ create_user ticking_clock at_sign_validate s2
                      (UserCreate.mk (py "a@x.com") (py "alice"))
          = (Return 201 r', s3)
       /\ UserResponse.id r' = UserResponse.id alice_view + 1
       /\ UserResponse.email r' = UserResponse.email alice_view
       /\ UserResponse.username r' = UserResponse.username alice_view.
Proof.
  split; [apply reachable_init|].
  assert (Hu : UserCreate_model_validate at_sign_validate
                 (py "a@x.com") (py "Alice")
               = Some (UserCreate.mk (py "a@x.com") (py "alice")))
    by (vm_compute; reflexivity).
  assert (Hc : create_user ticking_clock at_sign_validate init
                           (UserCreate.mk (py "a@x.com") (py "alice"))
               = (Return 201 alice_view, s_alice))
    by (vm_compute; reflexivity).
  apply (create_delete_create_again ticking_clock at_sign_validate
           at_sign_validate_idem init _ _ _ alice_view s_alice
           (reachable_init _ _) Hu Hc).
Defined.

Lemma create_user_then_get_user_by_email_witness :
  reachable ticking_clock at_sign_validate init
  /\ get_user_by_email at_sign_validate s_alice (py "a@x.com")
     = Return 200 alice_view.
Proof.
  split; [apply reachable_init|].
  assert (Hu : UserCreate_model_validate at_sign_validate
                 (py "a@x.com") (py "Alice")
               = Some (UserCreate.mk (py "a@x.com") (py "alice")))
    by (vm_compute; reflexivity).
  assert (Hc : create_user ticking_clock at_sign_validate init
                           (UserCreate.mk (py "a@x.com") (py "alice"))
               = (Return 201 alice_view, s_alice))
    by (vm_compute; reflexivity).
  apply (create_user_then_get_user_by_email ticking_clock at_sign_validate
           at_sign_validate_idem init _ _ _ 201 alice_view s_alice
           (reachable_init _ _) Hu Hc).
Defined.

Lemma rows_in_chronological_order_witness :
  (forall n, ticking_clock n <= ticking_clock (S n))
  /\ reachable ticking_clock at_sign_validate s_alice_bob
  /\ StronglySorted
       (fun u1 u2 => User.updated_at u1 <= User.created_at u2)
       (rows s_alice_bob).
Proof.
  split; [exact ticking_clock_monotone|].
  split; [exact reachable_s_alice_bob|].
  apply (rows_in_chronological_order ticking_clock at_sign_validate
           s_alice_bob ticking_clock_monotone reachable_s_alice_bob).
Defined.

Lemma get_users_pages_concatenate_witness :
  exists rs1 rs2,
    get_users at_sign_validate s_alice_bob 0 1 = Return 200 rs1
    /\ get_users at_sign_validate s_alice_bob (0 + 1) 1 = Return 200 rs2
    /\ get_users at_sign_validate s_alice_bob 0 (1 + 1)
       = Return 200 (rs1 ++ rs2)%list.
Proof.
  eexists. eexists.
  match goal with
  | |- ?A /\ ?B /\ _ =>
      assert (H1 : A) by (vm_compute; reflexivity);
      assert (H2 : B) by (vm_compute; reflexivity)
  end.
  split; [exact H1 | split; [exact H2|]].
  apply (get_users_pages_concatenate at_sign_validate s_alice_bob 0 1 1
           _ _); [lia | lia | lia | unfold bigint_max; lia
                  | exact H1 | exact H2].
Defined.

Lemma get_user_agrees_with_get_user_by_email_witness :
  reachable ticking_clock at_sign_validate s_alice
  /\ get_user at_sign_validate s_alice 1 = Return 200 alice_view
  /\ get_user_by_email at_sign_validate s_alice
                       (UserResponse.email alice_view)
     = Return 200 alice_view.
Proof.
  assert (H : get_user at_sign_validate s_alice 1 = Return 200 alice_view)
    by (vm_compute; reflexivity).
  split; [exact reachable_s_alice | split; [exact H|]].
  apply (get_user_agrees_with_get_user_by_email
           ticking_clock at_sign_validate at_sign_validate_idem
           s_alice 1 alice_view reachable_s_alice H).
Defined.

Lemma get_users_entries_fetchable_witness :
  reachable ticking_clock at_sign_validate s_alice
  /\ get_users at_sign_validate s_alice 0 100 = Return 200 [alice_view]
  /\ get_user at_sign_validate s_alice (UserResponse.id alice_view)
     = Return 200 alice_view.
Proof.
  assert (H : get_users at_sign_validate s_alice 0 100
              = Return 200 [alice_view])
    by (vm_compute; reflexivity).
  split; [exact reachable_s_alice | split; [exact H|]].
  apply (get_users_entries_fetchable ticking_clock at_sign_validate
           s_alice 0 100 [alice_view] alice_view reachable_s_alice H).
  left. reflexivity.
Defined.
